(** * Reportes: the report component of Rutas-Logisticas

    A shallow embedding of [Frontend/src/app/pages/reportes/reportes.ts]
    (class [ReportesComponent]) and the properties of its report pipeline:
    query selection, client-side filtering, summary statistics, cell
    formatting, the CSV export and the print view.

    Conventions.  Component methods are computations in a small monad [M]
    that threads the component's fields, logs the effects the method asks
    the browser for (HTTP requests, timers, downloads) and may end in a
    JavaScript exception.  Filter fields hold strings, as their
    initialisers do.  Strings are byte strings, and [toLowerCase] and
    [toUpperCase] map the ASCII letters only.  Every literal the component
    compares a lower-cased status against is lower-case ASCII without the
    letter k, and no character outside ASCII lower-cases to such a letter,
    so these comparisons agree with the engine's on every input. *)

From Stdlib Require Import String Ascii List ZArith Lia Bool.
From Stdlib Require FloatOps SpecFloat DecimalString.
From Stdlib Require Import PrimFloat.
Import ListNotations.
Local Open Scope list_scope.
Local Open Scope string_scope.

(* ================================================================== *)
(** * JavaScript values and the string operations the component uses *)
(* ================================================================== *)

Module JS.

(** Backend records are typed [any]: whatever [JSON.parse] produced.
    [JHeredado k] is the member [k] that every object literal inherits from
    [Object.prototype]; it is what a lookup by a computed key yields when the
    key happens to name such a member. *)
#[local] Set Warnings "-register-all".
Inductive any : Type :=
| JUndefined
| JNull
| JBool (b : bool)
| JNum (n : PrimFloat.float)
| JStr (s : string)
| JArr (xs : list any)
| JObj (campos : list (string * any))
| JHeredado (k : string).

(** Members of [Object.prototype]. *)
Definition objectPrototypeKeys : list string :=
  [ "constructor"; "__proto__"; "hasOwnProperty"; "isPrototypeOf";
    "propertyIsEnumerable"; "toLocaleString"; "toString"; "valueOf";
    "__defineGetter__"; "__defineSetter__"; "__lookupGetter__";
    "__lookupSetter__" ].

Definition strIn (s : string) (l : list string) : bool :=
  existsb (String.eqb s) l.

Fixpoint ownProp {A : Type} (campos : list (string * A)) (k : string) : option A :=
  match campos with
  | [] => None
  | (k', v) :: resto => if String.eqb k' k then Some v else ownProp resto k
  end.

(** [o[k]] on an object whose own fields are [campos]. *)
Definition prop (campos : list (string * any)) (k : string) : any :=
  match ownProp campos k with
  | Some v => v
  | None => if strIn k objectPrototypeKeys then JHeredado k else JUndefined
  end.

(** [typeof v]. *)
Definition typeof (v : any) : string :=
  match v with
  | JUndefined => "undefined"
  | JNull => "object"
  | JBool _ => "boolean"
  | JNum _ => "number"
  | JStr _ => "string"
  | JArr _ | JObj _ => "object"
  | JHeredado k => if String.eqb k "__proto__" then "object" else "function"
  end.

(** Truthiness of a string: [if (s)]. *)
Definition truthy (s : string) : bool :=
  match s with
  | EmptyString => false
  | String _ _ => true
  end.

Definition lowerAscii (c : ascii) : ascii :=
  let n := nat_of_ascii c in
  if (65 <=? n)%nat && (n <=? 90)%nat then ascii_of_nat (n + 32) else c.

Definition upperAscii (c : ascii) : ascii :=
  let n := nat_of_ascii c in
  if (97 <=? n)%nat && (n <=? 122)%nat then ascii_of_nat (n - 32) else c.

Fixpoint mapStr (f : ascii -> ascii) (s : string) : string :=
  match s with
  | EmptyString => EmptyString
  | String c r => String (f c) (mapStr f r)
  end.

Definition toLowerCase : string -> string := mapStr lowerAscii.
Definition toUpperCase : string -> string := mapStr upperAscii.

(** [s.includes(sub)]. *)
Definition includes (s sub : string) : bool :=
  match String.index 0 sub s with
  | Some _ => true
  | None => false
  end.

(** [s.charAt(0)] and [s.slice(1)]. *)
Definition charAt0 (s : string) : string :=
  match s with
  | EmptyString => ""
  | String c _ => String c ""
  end.

Definition slice1 (s : string) : string :=
  match s with
  | EmptyString => ""
  | String _ r => r
  end.

(** [v === s] for a string [s]. *)
Definition strictEqStr (v : any) (s : string) : bool :=
  match v with
  | JStr t => String.eqb t s
  | _ => false
  end.

(** [arr.includes(v)] for an array of strings. *)
Definition arrIncludes (arr : list string) (v : any) : bool :=
  match v with
  | JStr t => strIn t arr
  | _ => false
  end.

(** Exceptions and results of code that may throw. *)
Inductive Excepcion : Type := TypeError.

Inductive Resultado (A : Type) : Type :=
| Ok (a : A)
| Lanza (e : Excepcion).
Arguments Ok {A} a.
Arguments Lanza {A} e.

(** [v?.toLowerCase()]: the optional chain stops on [null]/[undefined]
    only; on any other value without a [toLowerCase] method the call
    throws a [TypeError]. *)
Definition optToLowerCase (v : any) : Resultado any :=
  match v with
  | JUndefined | JNull => Ok JUndefined
  | JStr s => Ok (JStr (toLowerCase s))
  | _ => Lanza TypeError
  end.

(** [arr.filter(cb)] with a callback that may throw. *)
Fixpoint filterR {A : Type} (cb : A -> Resultado bool) (arr : list A)
  : Resultado (list A) :=
  match arr with
  | [] => Ok []
  | x :: resto =>
      match cb x with
      | Lanza e => Lanza e
      | Ok b =>
          match filterR cb resto with
          | Lanza e => Lanza e
          | Ok ys => Ok (if b then x :: ys else ys)
          end
      end
  end.

(** What the component needs from the engine and cannot be computed here:
    the [Date] and [Intl] libraries, [JSON.stringify], [String(v)] and the
    clock. *)
Record Runtime : Type := mkRuntime {
  (** time value of [new Date(v)] in milliseconds; [None] is NaN *)
  dateTimeValue : any -> option Z;
  (** [d.toLocaleString('es-CO', {year, month, day, hour, minute})]
      for a date [d] with a finite time value *)
  fechaEsCO : Z -> string;
  (** [new Intl.NumberFormat('es-CO', {style:'currency', currency:'COP'}).format(n)] *)
  monedaCOP : any -> string;
  (** [JSON.stringify(v)] for [v] with [typeof v === 'object'] *)
  jsonStringify : any -> string;
  (** [String(v)] *)
  aString : any -> string;
  (** [new Date().toISOString().split('T')[0]] *)
  hoyISO : string
}.

(** [d.toLocaleString(...)]: an invalid date renders as the text
    "Invalid Date"; the method does not throw (ECMA-402, 20.4.1). *)
Definition toLocaleStringEsCO (rt : Runtime) (v : any) : Resultado string :=
  match dateTimeValue rt v with
  | Some t => Ok (fechaEsCO rt t)
  | None => Ok "Invalid Date"
  end.

End JS.

Import JS.

(* ================================================================== *)
(** * The component's fields                                          *)
(* ================================================================== *)

(** A backend record: the own fields of a JSON object, in key order. *)
Definition Registro : Type := list (string * any).

Record Filtros : Type := mkFiltros {
  fechaInicio : string;
  fechaFin : string;
  estado : string;
  estadoPedido : string;
  tipoVehiculo : string;
  clienteId : string;
  conductorId : string
}.

Record Estadistica : Type := mkEstadistica {
  label : string;
  value : Z
}.

Record ReportesComponent : Type := mkComponent {
  tipoReporte : string;
  datosReporte : list Registro;
  tituloReporte : string;
  loading : bool;
  error : option string;
  filtros : Filtros;
  estadisticasResumen : list Estadistica
}.

Definition filtrosVacios : Filtros := mkFiltros "" "" "" "" "" "" "".

(** The field initialisers of the class. *)
Definition inicial : ReportesComponent :=
  mkComponent "" [] "" false None filtrosVacios [].

Definition apiUrl : string := "http://localhost:8000/api/v1".

(** Assignments [this.f = x]. *)
Definition set_tipoReporte (x : string) (c : ReportesComponent) :=
  mkComponent x (datosReporte c) (tituloReporte c) (loading c) (error c)
              (filtros c) (estadisticasResumen c).
Definition set_datosReporte (x : list Registro) (c : ReportesComponent) :=
  mkComponent (tipoReporte c) x (tituloReporte c) (loading c) (error c)
              (filtros c) (estadisticasResumen c).
Definition set_tituloReporte (x : string) (c : ReportesComponent) :=
  mkComponent (tipoReporte c) (datosReporte c) x (loading c) (error c)
              (filtros c) (estadisticasResumen c).
Definition set_loading (x : bool) (c : ReportesComponent) :=
  mkComponent (tipoReporte c) (datosReporte c) (tituloReporte c) x (error c)
              (filtros c) (estadisticasResumen c).
Definition set_error (x : option string) (c : ReportesComponent) :=
  mkComponent (tipoReporte c) (datosReporte c) (tituloReporte c) (loading c) x
              (filtros c) (estadisticasResumen c).
Definition set_filtros (x : Filtros) (c : ReportesComponent) :=
  mkComponent (tipoReporte c) (datosReporte c) (tituloReporte c) (loading c)
              (error c) x (estadisticasResumen c).
Definition set_estadisticasResumen (x : list Estadistica) (c : ReportesComponent) :=
  mkComponent (tipoReporte c) (datosReporte c) (tituloReporte c) (loading c)
              (error c) (filtros c) x.

(* ================================================================== *)
(** * Effects and the method monad                                    *)
(* ================================================================== *)

(** [HttpParams]: an immutable ordered map; [set] replaces or appends. *)
Definition HttpParams : Type := list (string * string).

Fixpoint paramsSet (k v : string) (ps : HttpParams) : HttpParams :=
  match ps with
  | [] => [(k, v)]
  | (k', v') :: resto =>
      if String.eqb k' k then (k, v) :: resto else (k', v') :: paramsSet k v resto
  end.

(** The one timer callback of the file: [() => this.error = null]. *)
Inductive Callback : Type := BorrarError.

Inductive Efecto : Type :=
| HttpGet (url : string) (params : HttpParams)   (* this.http.get(url, {params}) *)
| SetTimeout (cb : Callback) (ms : Z)            (* setTimeout(cb, ms) *)
| Descarga (nombre contenido : string).          (* link.click() on the CSV blob *)

Definition M (A : Type) : Type :=
  ReportesComponent -> ReportesComponent * list Efecto * Resultado A.

Definition ret {A : Type} (a : A) : M A := fun c => (c, [], Ok a).

Definition bind {A B : Type} (m : M A) (f : A -> M B) : M B :=
  fun c =>
    match m c with
    | (c1, es1, Ok a) =>
        match f a c1 with
        | (c2, es2, r) => (c2, (es1 ++ es2)%list, r)
        end
    | (c1, es1, Lanza e) => (c1, es1, Lanza e)
    end.

Definition this : M ReportesComponent := fun c => (c, [], Ok c).
Definition asignar (f : ReportesComponent -> ReportesComponent) : M unit :=
  fun c => (f c, [], Ok tt).
Definition efecto (e : Efecto) : M unit := fun c => (c, [e], Ok tt).
Definition evaluar {A : Type} (r : Resultado A) : M A := fun c => (c, [], r).

(** [try { cuerpo } catch { manejador }]. *)
Definition tryCatch {A : Type} (cuerpo : M A) (manejador : Excepcion -> M A) : M A :=
  fun c =>
    match cuerpo c with
    | (c1, es1, Ok a) => (c1, es1, Ok a)
    | (c1, es1, Lanza e) =>
        match manejador e c1 with
        | (c2, es2, r) => (c2, (es1 ++ es2)%list, r)
        end
    end.

Declare Scope metodo_scope.
Delimit Scope metodo_scope with metodo.
Notation "x <- m ;; k" := (bind m (fun x => k))
  (at level 61, m at next level, right associativity) : metodo_scope.
Notation "m ;; k" := (bind m (fun _ => k))
  (at level 61, right associativity) : metodo_scope.
Local Open Scope metodo_scope.

Definition estadoFinal {A : Type} (r : ReportesComponent * list Efecto * Resultado A) :=
  fst (fst r).
Definition efectos {A : Type} (r : ReportesComponent * list Efecto * Resultado A) :=
  snd (fst r).
Definition resultado {A : Type} (r : ReportesComponent * list Efecto * Resultado A) :=
  snd r.

(** Running a timer callback when its delay has elapsed. *)
Definition disparar (cb : Callback) (c : ReportesComponent) : ReportesComponent :=
  match cb with
  | BorrarError => set_error None c
  end.

(* ================================================================== *)
(** * seleccionarReporte and the request half of generarReporte       *)
(* ================================================================== *)

Definition seleccionarReporte (tipo : string) : M unit :=
  asignar (set_tipoReporte tipo) ;;
  asignar (set_datosReporte []) ;;
  asignar (set_error None) ;;
  asignar (set_estadisticasResumen []) ;;
  asignar (set_tituloReporte
             ("Reporte de " ++ (toUpperCase (charAt0 tipo) ++ slice1 tipo))).

(** Lines 46-81: everything [generarReporte] does before the response
    arrives.  The [console.log] call is not modelled. *)
Definition generarReporte : M unit :=
  asignar (set_error None) ;;
  asignar (set_loading true) ;;
  c <- this ;;
  let f := filtros c in
  let '(url, params) :=
    if String.eqb (tipoReporte c) "pedidos" then
      if truthy (fechaInicio f) && truthy (fechaFin f) then
        (apiUrl ++ "/reports/orders-by-date",
         paramsSet "end_date" (fechaFin f)
           (paramsSet "start_date" (fechaInicio f) []))
      else if truthy (clienteId f) then
        (apiUrl ++ "/reports/orders-by-client/" ++ clienteId f, [])
      else
        (apiUrl ++ "/orders", [])
    else if String.eqb (tipoReporte c) "clientes" then
      (apiUrl ++ "/clients", [])
    else if String.eqb (tipoReporte c) "vehiculos" then
      (apiUrl ++ "/vehicles", [])
    else if String.eqb (tipoReporte c) "conductores" then
      let conductorId := if truthy (conductorId f) then conductorId f else "1" in
      (apiUrl ++ "/reports/routes-completed-by-driver/" ++ conductorId, [])
    else
      ("", [])
  in
  efecto (HttpGet url params).

(* ================================================================== *)
(** * Client-side filtering and statistics                            *)
(* ================================================================== *)

Definition bindR {A B : Type} (r : Resultado A) (f : A -> Resultado B) : Resultado B :=
  match r with
  | Ok a => f a
  | Lanza e => Lanza e
  end.

Declare Scope resultado_scope.
Delimit Scope resultado_scope with res.
Notation "x <- m ;; k" := (bindR m (fun x => k))
  (at level 61, m at next level, right associativity) : resultado_scope.

(** [item.status?.toLowerCase()] and [item.vehicle_type?.toLowerCase()]. *)
Definition campoLower (item : Registro) (campo : string) : Resultado any :=
  optToLowerCase (prop item campo).

(** The synonym table of the order-status filter (lines 121-126). *)
Definition estadoMap : list (string * list string) :=
  [ ("en_proceso", ["en_proceso"; "asignado"; "in_transit"]);
    ("pendiente", ["pendiente"; "pending"]);
    ("completado", ["completado"; "entregado"; "delivered"]);
    ("cancelado", ["cancelado"; "cancelled"]) ].

(** [estadoMap[k] || [k]].  [None] stands for an inherited member of the
    object literal: it is truthy, so it is what [estadosBuscar] becomes,
    and it has no [includes] method. *)
Definition estadosBuscar (k : string) : option (list string) :=
  match ownProp estadoMap k with
  | Some arr => Some arr
  | None => if strIn k objectPrototypeKeys then None else Some [k]
  end.

(** Lines 110-140: the three conditional filters, in order. *)
Definition filtrarDatos (tipo : string) (f : Filtros) (datos : list Registro)
  : Resultado (list Registro) :=
  (d1 <- (if String.eqb tipo "clientes" && truthy (estado f) then
            filterR (fun item =>
                       s <- campoLower item "status" ;;
                       Ok (strictEqStr s (toLowerCase (estado f))))
                    datos
          else Ok datos) ;;
   d2 <- (if String.eqb tipo "pedidos" && truthy (estadoPedido f) then
            let buscar := estadosBuscar (toLowerCase (estadoPedido f)) in
            filterR (fun item =>
                       s <- campoLower item "status" ;;
                       match buscar with
                       | Some arr => Ok (arrIncludes arr s)
                       | None => Lanza TypeError
                       end)
                    d1
          else Ok d1) ;;
   if String.eqb tipo "vehiculos" && truthy (tipoVehiculo f) then
     filterR (fun item =>
                s <- campoLower item "vehicle_type" ;;
                Ok (strictEqStr s (toLowerCase (tipoVehiculo f))))
             d2
   else Ok d2)%res.

(** The status buckets of the order statistics (lines 170, 173, 176). *)
Definition completadosEstados : list string := ["completado"; "entregado"; "delivered"].
Definition pendientesEstados : list string := ["pendiente"; "pending"].
Definition enProcesoEstados : list string := ["asignado"; "en_proceso"; "in_transit"].

(** [this.datosReporte.filter(p => bucket.includes(p.status?.toLowerCase())).length] *)
Definition contarEn (bucket : list string) (datos : list Registro) : Resultado Z :=
  (sel <- filterR (fun p => s <- campoLower p "status" ;; Ok (arrIncludes bucket s)) datos ;;
   Ok (Z.of_nat (length sel)))%res.

(** [this.datosReporte.filter(c => c.status?.toLowerCase() === lit).length] *)
Definition contarIgual (lit : string) (datos : list Registro) : Resultado Z :=
  (sel <- filterR (fun c => s <- campoLower c "status" ;; Ok (strictEqStr s lit)) datos ;;
   Ok (Z.of_nat (length sel)))%res.

Definition calcularEstadisticas : M unit :=
  c <- this ;;
  let datos := datosReporte c in
  if String.eqb (tipoReporte c) "pedidos" then
    let total := Z.of_nat (length datos) in
    completados <- evaluar (contarEn completadosEstados datos) ;;
    pendientes <- evaluar (contarEn pendientesEstados datos) ;;
    enProceso <- evaluar (contarEn enProcesoEstados datos) ;;
    asignar (set_estadisticasResumen
               [ mkEstadistica "Total" total;
                 mkEstadistica "Completados" completados;
                 mkEstadistica "En Proceso" enProceso;
                 mkEstadistica "Pendientes" pendientes ])
  else if String.eqb (tipoReporte c) "clientes" then
    let total := Z.of_nat (length datos) in
    activos <- evaluar (contarIgual "activo" datos) ;;
    asignar (set_estadisticasResumen
               [ mkEstadistica "Total" total;
                 mkEstadistica "Activos" activos;
                 mkEstadistica "Inactivos" (total - activos) ])
  else if String.eqb (tipoReporte c) "vehiculos" then
    let total := Z.of_nat (length datos) in
    disponibles <- evaluar (contarIgual "disponible" datos) ;;
    asignar (set_estadisticasResumen
               [ mkEstadistica "Total" total;
                 mkEstadistica "Disponibles" disponibles;
                 mkEstadistica "No Disponibles" (total - disponibles) ])
  else if String.eqb (tipoReporte c) "conductores" then
    let total := Z.of_nat (length datos) in
    asignar (set_estadisticasResumen [ mkEstadistica "Rutas Completadas" total ])
  else
    ret tt.

(* ================================================================== *)
(** * The response half of generarReporte                             *)
(* ================================================================== *)

(** What [catchError] reads of an [HttpErrorResponse]. *)
Record HttpErrorResponse : Type := mkHttpError {
  status : Z;
  detail : option string;      (* err.error?.detail, when it is a string *)
  message : string
}.

Definition oTruthy (o : option string) : option string :=
  match o with
  | Some s => if truthy s then Some s else None
  | None => None
  end.

(** Lines 83-103: the [catchError] handler; it then emits [[]]. *)
Definition alFallar (err : HttpErrorResponse) : M unit :=
  let porDefecto := "Error al generar el reporte." in
  let mensajeError :=
    if Z.eqb (status err) 0 then
      "🔴 No se puede conectar al servidor. Verifica que esté corriendo en http://localhost:8000"
    else if Z.eqb (status err) 404 then
      "Endpoint no encontrado. Verifica la configuración del backend."
    else if Z.eqb (status err) 500 then
      "Error interno del servidor: " ++
        match oTruthy (detail err) with Some d => d | None => "Error desconocido" end
    else
      match oTruthy (detail err) with
      | Some d => d
      | None => if truthy (message err) then message err else porDefecto
      end
  in
  asignar (set_error (Some mensajeError)) ;;
  asignar (set_loading false).

(** Lines 105-149: the [subscribe] callback.  [data] is [None] for a
    [null] body. *)
Definition alRecibir (data : option (list Registro)) : M unit :=
  asignar (set_loading false) ;;
  c <- this ;;
  let crudos := match data with Some d => d | None => [] end in
  datosFiltrados <- evaluar (filtrarDatos (tipoReporte c) (filtros c) crudos) ;;
  asignar (set_datosReporte datosFiltrados) ;;
  calcularEstadisticas ;;
  c' <- this ;;
  if Nat.eqb (length (datosReporte c')) 0 then
    match data with
    | None => evaluar (Lanza TypeError)          (* data.length on null *)
    | Some d =>
        if Nat.ltb 0 (length d) then
          asignar (set_error (Some "No hay resultados con los filtros aplicados")) ;;
          efecto (SetTimeout BorrarError 3000)
        else ret tt
    end
  else ret tt.

Inductive Respuesta : Type :=
| Exito (data : option (list Registro))
| Fallo (err : HttpErrorResponse).

Definition alResponder (r : Respuesta) : M unit :=
  match r with
  | Exito data => alRecibir data
  | Fallo err => alFallar err ;; alRecibir (Some [])
  end.

Definition limpiarFiltros : M unit :=
  asignar (set_filtros filtrosVacios) ;;
  asignar (set_datosReporte []) ;;
  asignar (set_estadisticasResumen []).

(* ================================================================== *)
(** * Table columns, cell formatting and the CSV export               *)
(* ================================================================== *)

Definition getColumnKeys (c : ReportesComponent) : list string :=
  match datosReporte c with
  | [] => []
  | primero :: _ => map fst primero
  end.

Definition translations : list (string * string) :=
  [ ("id", "ID"); ("name", "Nombre"); ("first_name", "Nombre");
    ("last_name", "Apellido"); ("email", "Email"); ("phone", "Teléfono");
    ("company", "Empresa"); ("client_type", "Tipo Cliente");
    ("status", "Estado"); ("order_number", "N° Orden");
    ("client_id", "Cliente"); ("driver_id", "Conductor");
    ("vehicle_id", "Vehículo"); ("origin_address", "Origen");
    ("destination_address", "Destino"); ("origin_city", "Ciudad Origen");
    ("destination_city", "Ciudad Destino"); ("priority", "Prioridad");
    ("value", "Valor"); ("tracking_code", "Código Rastreo");
    ("license_plate", "Placa"); ("brand", "Marca"); ("model", "Modelo");
    ("year", "Año"); ("vehicle_type", "Tipo Vehículo");
    ("document_number", "Documento"); ("license_type", "Tipo Licencia");
    ("created_at", "Fecha Creación"); ("updated_at", "Última Actualización") ].

(** [tabla[k] || alt] for an object literal [tabla] of non-empty strings
    and a key [k] that is a string or [undefined]. *)
Definition buscarO (tabla : list (string * string)) (k : any) (alt : any) : any :=
  let clave := match k with JStr s => s | _ => "undefined" end in
  match ownProp tabla clave with
  | Some etiqueta => JStr etiqueta
  | None => if strIn clave objectPrototypeKeys then JHeredado clave else alt
  end.

(** The class [\w] of a regular expression without the unicode flag. *)
Definition esPalabra (c : ascii) : bool :=
  let n := nat_of_ascii c in
  ((48 <=? n) && (n <=? 57) || (65 <=? n) && (n <=? 90)
   || (97 <=? n) && (n <=? 122) || (n =? 95))%nat.

(** [s.replace(/_/g, ' ')]. *)
Definition guionesAEspacios : string -> string :=
  mapStr (fun c => if Ascii.eqb c "_"%char then " "%char else c).

(** [s.replace(/\b\w/g, l => l.toUpperCase())]: a word character is
    replaced when the character before it is not one. *)
Fixpoint capitalizar (previoEsPalabra : bool) (s : string) : string :=
  match s with
  | EmptyString => EmptyString
  | String c r =>
      String (if negb previoEsPalabra && esPalabra c then upperAscii c else c)
             (capitalizar (esPalabra c) r)
  end.

Definition formatColumnName (key : string) : any :=
  buscarO translations (JStr key)
          (JStr (capitalizar false (guionesAEspacios key))).

Definition statusMap : list (string * string) :=
  [ ("pendiente", "Pendiente"); ("asignado", "Asignado");
    ("entregado", "Entregado"); ("cancelado", "Cancelado");
    ("activo", "Activo"); ("inactivo", "Inactivo");
    ("disponible", "Disponible") ].

Definition priorityMap : list (string * string) :=
  [ ("alta", "Alta"); ("media", "Media"); ("baja", "Baja") ].

(** [try { cuerpo } catch { manejador }] for code without effects. *)
Definition tryR {A : Type} (cuerpo : Resultado A) (manejador : Excepcion -> Resultado A)
  : Resultado A :=
  match cuerpo with
  | Ok a => Ok a
  | Lanza e => manejador e
  end.

Definition esNulo (v : any) : bool :=
  match v with
  | JNull | JUndefined => true
  | _ => false
  end.

Definition getColumnValue (rt : Runtime) (item : Registro) (key : string)
  : Resultado any :=
  let value := prop item key in
  if esNulo value then Ok (JStr "-")
  else if includes key "date" || includes key "_at" then
    tryR (s <- toLocaleStringEsCO rt value ;; Ok (JStr s))%res
         (fun _ => Ok value)
  else if String.eqb key "status" then
    (k <- optToLowerCase value ;; Ok (buscarO statusMap k value))%res
  else if String.eqb key "priority" then
    (k <- optToLowerCase value ;; Ok (buscarO priorityMap k value))%res
  else if String.eqb key "value" && String.eqb (typeof value) "number" then
    Ok (JStr (monedaCOP rt value))
  else if String.eqb (typeof value) "object" then
    Ok (JStr (jsonStringify rt value))
  else Ok value.

(** [String(v)]. *)
Definition toStr (rt : Runtime) (v : any) : string :=
  match v with
  | JStr s => s
  | _ => aString rt v
  end.

(** [arr.join(sep)] for an array of strings. *)
Fixpoint join (sep : string) (arr : list string) : string :=
  match arr with
  | [] => ""
  | [x] => x
  | x :: resto => x ++ sep ++ join sep resto
  end.

(** [arr.map(cb)] with a callback that may throw. *)
Fixpoint mapR {A B : Type} (cb : A -> Resultado B) (arr : list A) : Resultado (list B) :=
  match arr with
  | [] => Ok []
  | x :: resto =>
      (y <- cb x ;; ys <- mapR cb resto ;; Ok (y :: ys))%res
  end.

Definition comilla : string := String (ascii_of_nat 34) "".
Definition saltoDeLinea : string := String (ascii_of_nat 10) "".
(** U+FEFF in UTF-8. *)
Definition bom : string :=
  String (ascii_of_nat 239) (String (ascii_of_nat 187) (String (ascii_of_nat 191) "")).

(** One CSV line of lines 325-331. *)
Definition filaCsv (rt : Runtime) (headers : list string) (row : Registro)
  : Resultado string :=
  (celdas <- mapR (fun h =>
                     val <- getColumnValue rt row h ;;
                     let strVal := toStr rt val in
                     Ok (if includes strVal "," then comilla ++ strVal ++ comilla
                         else strVal))
                  headers ;;
   Ok (join "," celdas))%res.

(** Lines 314-349.  Building the blob and clicking the link is the single
    effect [Descarga]. *)
Definition exportarExcel (rt : Runtime) : M unit :=
  c <- this ;;
  if Nat.eqb (length (datosReporte c)) 0 then
    asignar (set_error (Some "No hay datos para exportar")) ;;
    efecto (SetTimeout BorrarError 3000)
  else
    tryCatch
      (let headers := getColumnKeys c in
       let cabecera := join "," (map (fun h => toStr rt (formatColumnName h)) headers) in
       filas <- evaluar (mapR (filaCsv rt headers) (datosReporte c)) ;;
       let csvContent := join saltoDeLinea (cabecera :: filas) in
       efecto (Descarga (tituloReporte c ++ "_" ++ hoyISO rt ++ ".csv")
                        (bom ++ csvContent)))
      (fun _ =>
         asignar (set_error (Some "Error al exportar CSV")) ;;
         efecto (SetTimeout BorrarError 3000)).

(* ================================================================== *)
(** * A reference runtime                                             *)
(* ================================================================== *)

(** A small engine on which the model can be run: dates are ISO calendar
    dates [YYYY-MM-DD] read and shown in UTC, numbers are written with
    their exact decimal expansion, currency is the number after a peso
    sign.  It stands for a browser wherever a statement needs one. *)
Module Referencia.

Definition digito (c : ascii) : option Z :=
  let n := nat_of_ascii c in
  if ((48 <=? n) && (n <=? 57))%nat then Some (Z.of_nat n - 48)%Z else None.

Fixpoint numeral (acc : Z) (s : string) : option Z :=
  match s with
  | EmptyString => Some acc
  | String c r =>
      match digito c with
      | Some d => numeral (10 * acc + d)%Z r
      | None => None
      end
  end.

Definition bisiesto (y : Z) : bool :=
  ((y mod 4 =? 0) && negb (y mod 100 =? 0) || (y mod 400 =? 0))%Z.

Definition diasDelMes (y m : Z) : Z :=
  (if m =? 2 then (if bisiesto y then 29 else 28)
   else if (m =? 4) || (m =? 6) || (m =? 9) || (m =? 11) then 30 else 31)%Z.

(** Days from 1970-01-01 to the civil date [y-m-d]. *)
Definition diasDesdeCivil (y m d : Z) : Z :=
  (let y' := if m <=? 2 then y - 1 else y in
   let era := y' / 400 in
   let yoe := y' - era * 400 in
   let doy := (153 * (if 2 <? m then m - 3 else m + 9) + 2) / 5 + d - 1 in
   let doe := yoe * 365 + yoe / 4 - yoe / 100 + doy in
   era * 146097 + doe - 719468)%Z.

Definition civilDesdeDias (z : Z) : Z * Z * Z :=
  (let z' := z + 719468 in
   let era := z' / 146097 in
   let doe := z' - era * 146097 in
   let yoe := (doe - doe / 1460 + doe / 36524 - doe / 146096) / 365 in
   let doy := doe - (365 * yoe + yoe / 4 - yoe / 100) in
   let mp := (5 * doy + 2) / 153 in
   let d := doy - (153 * mp + 2) / 5 + 1 in
   let m := if mp <? 10 then mp + 3 else mp - 9 in
   ((yoe + era * 400 + (if m <=? 2 then 1 else 0), m), d))%Z.

Definition fechaISO (s : string) : option Z :=
  if Nat.eqb (String.length s) 10
     && String.eqb (substring 4 1 s) "-" && String.eqb (substring 7 1 s) "-"
  then
    match numeral 0 (substring 0 4 s), numeral 0 (substring 5 2 s),
          numeral 0 (substring 8 2 s) with
    | Some y, Some m, Some d =>
        if ((1 <=? m) && (m <=? 12) && (1 <=? d) && (d <=? diasDelMes y m))%Z
        then Some (diasDesdeCivil y m d * 86400000)%Z
        else None
    | _, _, _ => None
    end
  else None.

Definition decimal (z : Z) : string :=
  match z with
  | Z0 => "0"
  | Zpos p => DecimalString.NilEmpty.string_of_uint (Pos.to_uint p)
  | Zneg p => "-" ++ DecimalString.NilEmpty.string_of_uint (Pos.to_uint p)
  end.

Definition dosDigitos (z : Z) : string :=
  if (z <? 10)%Z then "0" ++ decimal z else decimal z.

Definition fechaTexto (t : Z) : string :=
  let '(y, m, d) := civilDesdeDias (t / 86400000) in
  let resto := (t mod 86400000)%Z in
  dosDigitos d ++ "/" ++ dosDigitos m ++ "/" ++ decimal y ++ ", "
    ++ dosDigitos (resto / 3600000) ++ ":" ++ dosDigitos ((resto / 60000) mod 60).

Fixpoint ceros (n : nat) : string :=
  match n with
  | O => ""
  | S k => "0" ++ ceros k
  end.

(** [m / 2^k] in lowest terms. *)
Fixpoint reducir (m : positive) (k : nat) : positive * nat :=
  match m, k with
  | xO p, S k' => reducir p k'
  | _, _ => (m, k)
  end.

(** The exact decimal expansion of [m * 2^e]. *)
Definition expansion (m : positive) (e : Z) : string :=
  if (0 <=? e)%Z then decimal (Zpos m * 2 ^ e)
  else
    let '(m', k) := reducir m (Z.to_nat (- e)) in
    let n := (Zpos m' * 5 ^ Z.of_nat k)%Z in
    let q := (n / 10 ^ Z.of_nat k)%Z in
    let r := decimal (n mod 10 ^ Z.of_nat k) in
    if Nat.eqb k 0 then decimal q
    else decimal q ++ "." ++ ceros (k - String.length r) ++ r.

Definition numeroTexto (f : PrimFloat.float) : string :=
  match FloatOps.Prim2SF f with
  | SpecFloat.S754_zero _ => "0"
  | SpecFloat.S754_infinity s => if s then "-Infinity" else "Infinity"
  | SpecFloat.S754_nan => "NaN"
  | SpecFloat.S754_finite s m e => (if s then "-" else "") ++ expansion m e
  end.

Fixpoint cadena (v : any) : string :=
  match v with
  | JUndefined => "undefined"
  | JNull => "null"
  | JBool b => if b then "true" else "false"
  | JNum n => numeroTexto n
  | JStr s => s
  | JArr xs =>
      join "," (map (fun x => if esNulo x then "" else cadena x) xs)
  | JObj _ => "[object Object]"
  | JHeredado k =>
      if String.eqb k "__proto__" then "[object Object]"
      else "function " ++ k ++ "() { [native code] }"
  end.

Definition entreComillas (s : string) : string :=
  comilla ++
  (fix esc (s : string) : string :=
     match s with
     | EmptyString => ""
     | String c r =>
         (if Ascii.eqb c (ascii_of_nat 34) then "\" ++ comilla
          else if Ascii.eqb c "\"%char then "\\"
          else if Ascii.eqb c (ascii_of_nat 10) then "\n"
          else String c "") ++ esc r
     end) s
  ++ comilla.

Fixpoint json (v : any) : string :=
  match v with
  | JUndefined | JNull | JHeredado _ => "null"
  | JBool b => if b then "true" else "false"
  | JNum n => numeroTexto n
  | JStr s => entreComillas s
  | JArr xs => "[" ++ join "," (map json xs) ++ "]"
  | JObj campos =>
      "{" ++ join "," (map (fun kv => entreComillas (fst kv) ++ ":" ++ json (snd kv))
                           campos) ++ "}"
  end.

Definition rt : Runtime :=
  {| dateTimeValue := fun v => match v with JStr s => fechaISO s | _ => None end;
     fechaEsCO := fechaTexto;
     monedaCOP := fun v => "$ " ++ cadena v;
     jsonStringify := json;
     aString := cadena;
     hoyISO := "2024-01-31" |}.

End Referencia.

(* ================================================================== *)
(** * Predicates used in the statements                               *)
(* ================================================================== *)

(** The categories [generarReporte] has a branch for. *)
Definition tiposConocidos : list string :=
  ["pedidos"; "clientes"; "vehiculos"; "conductores"].

(** Values on which [v?.toLowerCase()] yields a result. *)
Definition encadenable (v : any) : bool :=
  match v with
  | JUndefined | JNull | JStr _ => true
  | _ => false
  end.

Definition estadosLegibles (datos : list Registro) : Prop :=
  forallb (fun r => encadenable (prop r "status")) datos = true.

(** The record's status is a string that lower-cases to [lit]. *)
Definition estadoEs (lit : string) (r : Registro) : bool :=
  match prop r "status" with
  | JStr s => String.eqb (toLowerCase s) lit
  | _ => false
  end.

(** The record's status is a string that lower-cases into [bucket]. *)
Definition estadoEn (bucket : list string) (r : Registro) : bool :=
  match prop r "status" with
  | JStr s => strIn (toLowerCase s) bucket
  | _ => false
  end.

Definition contar (p : Registro -> bool) (datos : list Registro) : Z :=
  Z.of_nat (length (filter p datos)).

(* ================================================================== *)
(** * Component states used as examples                               *)
(* ================================================================== *)

(** The two transient messages, as the source spells them. *)
Definition mensajeVacio : string := "No hay resultados con los filtros aplicados".
Definition mensajeSinDatos : string := "No hay datos para exportar".

(** Orders, with a date range. *)
Definition pedidosEnero : ReportesComponent :=
  set_filtros (mkFiltros "2024-01-01" "2024-01-31" "" "" "" "" "")
              (set_tipoReporte "pedidos" inicial).


(** Orders, four rows loaded, one of them without a status. *)
Definition cuatroPedidos : ReportesComponent :=
  set_datosReporte [ [("id", JNum 1); ("status", JStr "Entregado")];
                     [("id", JNum 2); ("status", JStr "in_transit")];
                     [("id", JNum 3); ("status", JStr "cancelado")];
                     [("id", JNum 4)] ]
                   (set_tipoReporte "pedidos" inicial).

(** Clients, with the status filter set. *)
Definition clientesFiltroActivo : ReportesComponent :=
  set_filtros (mkFiltros "" "" "activo" "" "" "" "")
              (set_tipoReporte "clientes" inicial).

(** Clients, after the backend answered 404. *)
Definition trasFallo : ReportesComponent :=
  estadoFinal (alResponder (Fallo (mkHttpError 404 None "Not Found"))
                           (set_tipoReporte "clientes" inicial)).

(* ================================================================== *)
(** * Further predicates                                              *)
(* ================================================================== *)


(** Every record's field [campo] is a string, null or absent. *)
Definition camposLegibles (campo : string) (datos : list Registro) : bool :=
  forallb (fun r => encadenable (prop r campo)) datos.


(** The synonyms of the order filter for cancelled orders. *)
Definition canceladosEstados : list string := ["cancelado"; "cancelled"].

(* ================================================================== *)
(** * Further component states used as examples                       *)
(* ================================================================== *)

(** Vehicles, three rows loaded. *)
Definition tresVehiculos : ReportesComponent :=
  set_datosReporte [ [("license_plate", JStr "ABC123"); ("status", JStr "Disponible")];
                     [("license_plate", JStr "XYZ789"); ("status", JStr "en_ruta")];
                     [("license_plate", JStr "JKL456"); ("status", JStr "DISPONIBLE")] ]
                   (set_tipoReporte "vehiculos" inicial).

(** Orders filtered by the completed bucket. *)
Definition pedidosCompletados : ReportesComponent :=
  set_filtros (mkFiltros "" "" "" "Completado" "" "" "")
              (set_tipoReporte "pedidos" inicial).

(** Drivers, no driver chosen. *)
Definition conductoresSinId : ReportesComponent :=
  set_filtros (mkFiltros "2024-01-01" "2024-01-31" "" "" "" "5" "")
              (set_tipoReporte "conductores" inicial).

(* ================================================================== *)
(** * Reading text back                                               *)
(* ================================================================== *)

(** The string has an occurrence of the character. *)
Fixpoint tieneCaracter (c : ascii) (s : string) : bool :=
  match s with
  | EmptyString => false
  | String ch resto => Ascii.eqb ch c || tieneCaracter c resto
  end.

(** A reader for one line of comma-separated text, used to state what the
    export can be read back as: a quote opens or closes a quoted stretch
    and is not part of the field, a comma outside such a stretch ends the
    field. *)
Fixpoint leerCsv (enComillas : bool) (campo linea : string) : list string :=
  match linea with
  | EmptyString => [campo]
  | String ch resto =>
      if Ascii.eqb ch (ascii_of_nat 34) then leerCsv (negb enComillas) campo resto
      else if Ascii.eqb ch ","%char && negb enComillas
           then campo :: leerCsv false "" resto
           else leerCsv enComillas (campo ++ String ch "") resto
  end.

(** The computation returns. *)
Definition devuelve {A : Type} (r : Resultado A) : bool :=
  match r with
  | Ok _ => true
  | Lanza _ => false
  end.

(** A field of a CSV line as [exportarExcel] writes it. *)
Definition campoCsv (strVal : string) : string :=
  if includes strVal "," then comilla ++ strVal ++ comilla else strVal.

(** Clients, two rows loaded, the second with a comma in the name. *)
Definition clientesConComa : ReportesComponent :=
  set_tituloReporte "Reporte de Clientes"
    (set_datosReporte [ [("id", JNum 1); ("name", JStr "Ana"); ("status", JStr "activo")];
                        [("id", JNum 2); ("name", JStr "Ruiz, Luis"); ("status", JNull)] ]
                      (set_tipoReporte "clientes" inicial)).

(* ================================================================== *)
(** * The print view: exportarPDF and imprimirReporte                 *)
(* ================================================================== *)

(** The print document, up to the title. *)
Definition plantillaCabeza : string :=
  "
        <!DOCTYPE html>
        <html>
        <head>
          <title>".

(** The print document, from the title to the heading: the style sheet and the print button. *)
Definition plantillaEstilos : string :=
  "</title>
          <meta charset=" ++ comilla ++ "UTF-8" ++ comilla ++ ">
          <style>
            body { 
              font-family: Arial, sans-serif; 
              padding: 20px;
              max-width: 1200px;
              margin: 0 auto;
            }
            h1 { 
              color: #ff7a00; 
              margin-bottom: 10px;
              font-size: 24px;
            }
            .fecha {
              color: #666;
              margin-bottom: 20px;
              font-size: 14px;
            }
            table { 
              width: 100%; 
              border-collapse: collapse; 
              margin-top: 20px;
              font-size: 11px;
            }
            th { 
              background: #ff7a00; 
              color: white; 
              padding: 10px 6px; 
              text-align: left;
              font-weight: 600;
            }
            td { 
              padding: 8px 6px; 
              border-bottom: 1px solid #ddd;
            }
            tr:nth-child(even) {
              background: #f9f9f9;
            }
            .print-button {
              background: #ff7a00;
              color: white;
              padding: 10px 20px;
              border: none;
              border-radius: 5px;
              cursor: pointer;
              margin-bottom: 20px;
              font-size: 14px;
            }
            .print-button:hover {
              background: #e66900;
            }
            @media print {
              .print-button { 
                display: none; 
              }
              body {
                padding: 0;
              }
            }
          </style>
        </head>
        <body>
          <button class=" ++ comilla ++ "print-button" ++ comilla ++ " onclick=" ++ comilla ++ "window.print()" ++ comilla ++ ">🖨️ Imprimir PDF</button>
          <h1>".

(** The print document, from the heading to the time of generation. *)
Definition plantillaFecha : string :=
  "</h1>
          <div class=" ++ comilla ++ "fecha" ++ comilla ++ ">Generado: ".

(** The print document, from the time of generation to the header cells. *)
Definition plantillaTabla : string :=
  "</div>
          <table>
            <thead>
              <tr>".

(** The print document, from the header cells to the rows. *)
Definition plantillaCuerpo : string :=
  "</tr>
            </thead>
            <tbody>
              ".

(** The print document, after the rows. *)
Definition plantillaPie : string :=
  "
            </tbody>
          </table>
        </body>
        </html>
      ".

(** Around the cells of one row. *)
Definition filaAntes : string :=
  "
                <tr>".

Definition filaDespues : string :=
  "</tr>
              ".

(** What the print view asks of the browser, besides the timer. *)
Inductive EfectoVentana : Type :=
| Temporizador (e : Efecto)          (* an effect of the component itself *)
| WindowOpen                          (* window.open('', '_blank') *)
| DocumentWrite (html : string)       (* printWindow.document.write(html) *)
| DocumentClose                       (* printWindow.document.close() *)
| WindowPrint.                        (* window.print() *)

(** [`<td>${this.getColumnValue(row, k)}</td>`] *)
Definition celdaHtml (rt : Runtime) (row : Registro) (k : string) : Resultado string :=
  (v <- getColumnValue rt row k ;; Ok ("<td>" ++ toStr rt v ++ "</td>"))%res.

(** One row of the table body (lines 437-439). *)
Definition filaHtml (rt : Runtime) (keys : list string) (row : Registro)
  : Resultado string :=
  (celdas <- mapR (celdaHtml rt row) keys ;;
   Ok (filaAntes ++ join "" celdas ++ filaDespues))%res.

(** The template literal of lines 362-444.  [ahora] is
    [new Date().toLocaleString('es-CO')]. *)
Definition documentoPDF (rt : Runtime) (ahora : string) (c : ReportesComponent)
  : Resultado string :=
  let headers := map formatColumnName (getColumnKeys c) in
  (filas <- mapR (filaHtml rt (getColumnKeys c)) (datosReporte c) ;;
   Ok (plantillaCabeza ++ tituloReporte c ++ plantillaEstilos ++ tituloReporte c
       ++ plantillaFecha ++ ahora ++ plantillaTabla
       ++ join "" (map (fun h => "<th>" ++ toStr rt h ++ "</th>") headers)
       ++ plantillaCuerpo ++ join "" filas ++ plantillaPie))%res.

(** Lines 352-459.  [emergente] tells whether [window.open] returns a
    window (it returns null when the browser blocks pop-ups). *)
Definition exportarPDF (rt : Runtime) (ahora : string) (emergente : bool)
           (c : ReportesComponent)
  : ReportesComponent * list EfectoVentana * Resultado unit :=
  if Nat.eqb (length (datosReporte c)) 0 then
    (set_error (Some "No hay datos para exportar") c,
     [Temporizador (SetTimeout BorrarError 3000)], Ok tt)
  else
    match documentoPDF rt ahora c with
    | Ok html =>
        if emergente then
          (c, [WindowOpen; DocumentWrite html; DocumentClose], Ok tt)
        else
          (set_error (Some "Por favor permite ventanas emergentes para exportar PDF") c,
           [WindowOpen; Temporizador (SetTimeout BorrarError 3000)], Ok tt)
    | Lanza _ =>
        (set_error (Some "Error al generar vista de impresión") c,
         [Temporizador (SetTimeout BorrarError 3000)], Ok tt)
    end.

(** The three parts of what a print-view method yields. *)
Definition estadoV {A : Type}
           (r : ReportesComponent * list EfectoVentana * Resultado A) := fst (fst r).
Definition efectosV {A : Type}
           (r : ReportesComponent * list EfectoVentana * Resultado A) := snd (fst r).
Definition resultadoV {A : Type}
           (r : ReportesComponent * list EfectoVentana * Resultado A) := snd r.

Definition imprimirReporte (c : ReportesComponent)
  : ReportesComponent * list EfectoVentana * Resultado unit :=
  (c, [WindowPrint], Ok tt).

(* ================================================================== *)
(** * Selecting a category                                            *)
(* ================================================================== *)

(** C7. Whatever the component held before, [seleccionarReporte tipo]
    returns normally and leaves the result set empty, the statistics
    empty and the error message null. *)
Theorem seleccionarReporte_reinicia (c : ReportesComponent) (tipo : string) :
  let r := seleccionarReporte tipo c in
  resultado r = Ok tt /\
  datosReporte (estadoFinal r) = [] /\
  estadisticasResumen (estadoFinal r) = [] /\
  error (estadoFinal r) = None.
Proof.
  cbv zeta. unfold seleccionarReporte, bind, asignar. simpl.
  repeat split.
Qed.

(** C10. [seleccionarReporte tipo] does not touch the filter criteria:
    each of the seven filter fields, and the loading flag, has the value
    it had before the call. *)
Theorem seleccionarReporte_conserva_filtros (c : ReportesComponent) (tipo : string) :
  let c' := estadoFinal (seleccionarReporte tipo c) in
  fechaInicio (filtros c') = fechaInicio (filtros c) /\
  fechaFin (filtros c') = fechaFin (filtros c) /\
  estado (filtros c') = estado (filtros c) /\
  estadoPedido (filtros c') = estadoPedido (filtros c) /\
  tipoVehiculo (filtros c') = tipoVehiculo (filtros c) /\
  clienteId (filtros c') = clienteId (filtros c) /\
  conductorId (filtros c') = conductorId (filtros c) /\
  loading c' = loading c.
Proof.
  cbv zeta. unfold seleccionarReporte, bind, asignar. simpl.
  repeat split.
Qed.

(** The category and the title are what the call does set. *)
Lemma seleccionarReporte_titulo :
  estadoFinal (seleccionarReporte "pedidos" inicial)
  = set_tituloReporte "Reporte de Pedidos" (set_tipoReporte "pedidos" inicial).
Proof. reflexivity. Qed.

(* ================================================================== *)
(** * Choosing the endpoint                                           *)
(* ================================================================== *)

Lemma truthy_iff (s : string) : truthy s = true <-> s <> "".
Proof.
  destruct s; simpl; split; intro H; try discriminate; try reflexivity.
  now contradiction H.
Qed.

Lemma truthy_false_iff (s : string) : truthy s = false <-> s = "".
Proof.
  destruct s; simpl; split; intro H; try discriminate; reflexivity.
Qed.

(** The request issued for a component whose category is [pedidos]. *)
Lemma generarReporte_pedidos (c : ReportesComponent) :
  tipoReporte c = "pedidos" ->
  efectos (generarReporte c) =
  [ let f := filtros c in
    if truthy (fechaInicio f) && truthy (fechaFin f) then
      HttpGet (apiUrl ++ "/reports/orders-by-date")
              [("start_date", fechaInicio f); ("end_date", fechaFin f)]
    else if truthy (clienteId f) then
      HttpGet (apiUrl ++ "/reports/orders-by-client/" ++ clienteId f) []
    else HttpGet (apiUrl ++ "/orders") [] ].
Proof.
  intro H. destruct c as [t d ti l e f es]. simpl in H. subst t.
  unfold generarReporte, bind, asignar, this, efecto. simpl.
  destruct (truthy (fechaInicio f) && truthy (fechaFin f)); [reflexivity|].
  destruct (truthy (clienteId f)); reflexivity.
Qed.

(** C1. With category [pedidos], [generarReporte] issues exactly one
    request, chosen by priority: both dates present, the date-range
    endpoint with [start_date] and [end_date] set to them; otherwise a
    client identifier present, the client endpoint with the identifier as
    the last path segment; otherwise the plain [/orders] listing. *)
Theorem generarReporte_pedidos_prioridad (c : ReportesComponent) :
  tipoReporte c = "pedidos" ->
  let f := filtros c in
  (fechaInicio f <> "" /\ fechaFin f <> "" ->
   efectos (generarReporte c) =
   [HttpGet (apiUrl ++ "/reports/orders-by-date")
            [("start_date", fechaInicio f); ("end_date", fechaFin f)]]) /\
  (~ (fechaInicio f <> "" /\ fechaFin f <> "") -> clienteId f <> "" ->
   efectos (generarReporte c) =
   [HttpGet (apiUrl ++ "/reports/orders-by-client/" ++ clienteId f) []]) /\
  (~ (fechaInicio f <> "" /\ fechaFin f <> "") -> clienteId f = "" ->
   efectos (generarReporte c) = [HttpGet (apiUrl ++ "/orders") []]).
Proof.
  intros H f. rewrite (generarReporte_pedidos c H). cbv zeta. fold f.
  assert (Hb : truthy (fechaInicio f) && truthy (fechaFin f) = true
               <-> fechaInicio f <> "" /\ fechaFin f <> "").
  { rewrite andb_true_iff, !truthy_iff. tauto. }
  repeat split.
  - intro Hd. apply Hb in Hd. now rewrite Hd.
  - intros Hn Hc.
    destruct (truthy (fechaInicio f) && truthy (fechaFin f)) eqn:E.
    + exfalso. apply Hn, Hb. reflexivity.
    + apply truthy_iff in Hc. now rewrite Hc.
  - intros Hn Hc.
    destruct (truthy (fechaInicio f) && truthy (fechaFin f)) eqn:E.
    + exfalso. apply Hn, Hb. reflexivity.
    + apply truthy_false_iff in Hc. now rewrite Hc.
Qed.

Lemma generarReporte_pedidos_prioridad_witness :
  tipoReporte pedidosEnero = "pedidos" /\
  efectos (generarReporte pedidosEnero) =
  [HttpGet "http://localhost:8000/api/v1/reports/orders-by-date"
           [("start_date", "2024-01-01"); ("end_date", "2024-01-31")]].
Proof.
  split; [reflexivity|].
  apply (generarReporte_pedidos_prioridad pedidosEnero); [reflexivity|].
  split; discriminate.
Defined.

Lemma no_conocido (t : string) :
  ~ In t tiposConocidos ->
  String.eqb t "pedidos" = false /\ String.eqb t "clientes" = false /\
  String.eqb t "vehiculos" = false /\ String.eqb t "conductores" = false.
Proof.
  intro H. repeat split; apply String.eqb_neq; intro E; apply H; subst t;
    simpl; tauto.
Qed.

(** C2, as the code has it. With an empty or unknown category
    [generarReporte] chooses no endpoint, yet it is not a no-op: it clears
    the error message, raises the loading flag and issues the request, for
    the empty URL and without parameters.  Category, title, filters,
    result set and statistics are as before. *)
Theorem generarReporte_tipo_desconocido (c : ReportesComponent) :
  ~ In (tipoReporte c) tiposConocidos ->
  generarReporte c = (set_loading true (set_error None c), [HttpGet "" []], Ok tt).
Proof.
  intro H. apply no_conocido in H. destruct H as (H1 & H2 & H3 & H4).
  destruct c as [t d ti l e f es]. simpl in *.
  unfold generarReporte, bind, asignar, this, efecto. simpl.
  rewrite H1, H2, H3, H4. reflexivity.
Qed.

Lemma generarReporte_tipo_desconocido_witness :
  generarReporte inicial = (set_loading true inicial, [HttpGet "" []], Ok tt).
Proof.
  apply (generarReporte_tipo_desconocido inicial).
  simpl. intros [H|[H|[H|[H|[]]]]]; discriminate.
Defined.

(** C2, as stated, fails: on the freshly constructed component, whose
    category is empty, the call issues a request and changes the state. *)
Lemma generarReporte_sin_tipo_no_es_noop :
  ~ (efectos (generarReporte inicial) = []
     /\ estadoFinal (generarReporte inicial) = inicial).
Proof.
  intros [H _]. discriminate H.
Qed.

(* ================================================================== *)
(** * Summary statistics                                              *)
(* ================================================================== *)

Section Conteo.

Context {A : Type} (cb : A -> Resultado bool) (ok p : A -> bool).
Hypothesis cb_spec : forall x, cb x = if ok x then Ok (p x) else Lanza TypeError.

(** A filter whose callback throws exactly off [ok] throws exactly on
    the arrays with an element off [ok]. *)
Lemma filterR_spec (arr : list A) :
  filterR cb arr = if forallb ok arr then Ok (filter p arr) else Lanza TypeError.
Proof.
  induction arr as [|x resto IH]; simpl; [reflexivity|].
  rewrite cb_spec. destruct (ok x); simpl; [|reflexivity].
  rewrite IH. destruct (forallb ok resto); [|reflexivity].
  destruct (p x); reflexivity.
Qed.

End Conteo.

Lemma campoLower_status (r : Registro) :
  campoLower r "status" =
  if encadenable (prop r "status")
  then Ok (match prop r "status" with
           | JStr s => JStr (toLowerCase s)
           | _ => JUndefined
           end)
  else Lanza TypeError.
Proof.
  unfold campoLower. destruct (prop r "status"); reflexivity.
Qed.

Lemma contarIgual_spec (lit : string) (datos : list Registro) :
  contarIgual lit datos =
  if forallb (fun r => encadenable (prop r "status")) datos
  then Ok (contar (estadoEs lit) datos) else Lanza TypeError.
Proof.
  unfold contarIgual, contar.
  rewrite filterR_spec
    with (ok := fun r => encadenable (prop r "status")) (p := estadoEs lit).
  - destruct (forallb (fun r => encadenable (prop r "status")) datos); reflexivity.
  - intro r. rewrite campoLower_status. unfold estadoEs.
    destruct (prop r "status"); reflexivity.
Qed.

Lemma contarEn_spec (bucket : list string) (datos : list Registro) :
  contarEn bucket datos =
  if forallb (fun r => encadenable (prop r "status")) datos
  then Ok (contar (estadoEn bucket) datos) else Lanza TypeError.
Proof.
  unfold contarEn, contar.
  rewrite filterR_spec
    with (ok := fun r => encadenable (prop r "status")) (p := estadoEn bucket).
  - destruct (forallb (fun r => encadenable (prop r "status")) datos); reflexivity.
  - intro r. rewrite campoLower_status. unfold estadoEn.
    destruct (prop r "status"); reflexivity.
Qed.

#[local] Arguments contarEn : simpl never.
#[local] Arguments contarIgual : simpl never.



(** The example of the specification: status filter "activo" over the
    statuses Activo, activo, Inactivo keeps two rows, both counted active. *)
Lemma clientes_filtrados_ejemplo :
  estadisticasResumen
    (estadoFinal
       (alResponder
          (Exito (Some [ [("status", JStr "Activo")]; [("status", JStr "activo")];
                         [("status", JStr "Inactivo")] ]))
          clientesFiltroActivo))
  = [ mkEstadistica "Total" 2; mkEstadistica "Activos" 2; mkEstadistica "Inactivos" 0 ].
Proof. reflexivity. Qed.


Lemma cubetas_excluyentes (r : Registro) :
  (Z.b2z (estadoEn completadosEstados r) + Z.b2z (estadoEn enProcesoEstados r)
   + Z.b2z (estadoEn pendientesEstados r) <= 1)%Z.
Proof.
  unfold estadoEn. destruct (prop r "status"); simpl; try lia.
  generalize (toLowerCase s). intro t.
  unfold strIn, completadosEstados, enProcesoEstados, pendientesEstados. simpl.
  repeat match goal with
         | |- context [String.eqb t ?lit] =>
             destruct (String.eqb_spec t lit); [subst t; simpl; lia|]
         end.
  simpl. lia.
Qed.

Lemma contar_excluyentes (p1 p2 p3 : Registro -> bool) (datos : list Registro) :
  (forall r, Z.b2z (p1 r) + Z.b2z (p2 r) + Z.b2z (p3 r) <= 1)%Z ->
  (contar p1 datos + contar p2 datos + contar p3 datos
   <= Z.of_nat (length datos))%Z.
Proof.
  intro H. unfold contar.
  induction datos as [|r resto IH]; [simpl; lia|].
  specialize (H r). cbn [filter].
  destruct (p1 r), (p2 r), (p3 r); cbn [length Z.b2z] in *; lia.
Qed.

Lemma calcularEstadisticas_pedidos (c : ReportesComponent) :
  tipoReporte c = "pedidos" ->
  calcularEstadisticas c =
  if forallb (fun r => encadenable (prop r "status")) (datosReporte c)
  then (set_estadisticasResumen
          [ mkEstadistica "Total" (Z.of_nat (length (datosReporte c)));
            mkEstadistica "Completados" (contar (estadoEn completadosEstados) (datosReporte c));
            mkEstadistica "En Proceso" (contar (estadoEn enProcesoEstados) (datosReporte c));
            mkEstadistica "Pendientes" (contar (estadoEn pendientesEstados) (datosReporte c)) ]
          c, [], Ok tt)
  else (c, [], Lanza TypeError).
Proof.
  intro Ht. destruct c as [t d ti l e f es]. simpl in *. subst t.
  unfold calcularEstadisticas, bind, this, evaluar, asignar. simpl.
  rewrite !contarEn_spec.
  destruct (forallb (fun r => encadenable (prop r "status")) d); reflexivity.
Qed.

(** C9. The three order-status buckets hold lower-case spellings and are
    pairwise disjoint.  Hence, for every order result set, a record falls
    in at most one bucket and Completados + En Proceso + Pendientes is at
    most Total; these four are the statistics the component stores, which
    it does exactly when every status is a string, null or absent. *)
Theorem pedidos_cubetas_disjuntas :
  Forall (fun s => toLowerCase s = s)
         (completadosEstados ++ pendientesEstados ++ enProcesoEstados)%list /\
  (forall s,
      ~ (In s completadosEstados /\ In s pendientesEstados) /\
      ~ (In s completadosEstados /\ In s enProcesoEstados) /\
      ~ (In s pendientesEstados /\ In s enProcesoEstados)) /\
  (forall c : ReportesComponent,
      tipoReporte c = "pedidos" ->
      let datos := datosReporte c in
      let total := Z.of_nat (length datos) in
      let completados := contar (estadoEn completadosEstados) datos in
      let enProceso := contar (estadoEn enProcesoEstados) datos in
      let pendientes := contar (estadoEn pendientesEstados) datos in
      (forall r, In r datos ->
                 Z.b2z (estadoEn completadosEstados r)
                 + Z.b2z (estadoEn enProcesoEstados r)
                 + Z.b2z (estadoEn pendientesEstados r) <= 1)%Z /\
      (completados + enProceso + pendientes <= total)%Z /\
      (estadosLegibles datos ->
       calcularEstadisticas c =
       (set_estadisticasResumen
          [ mkEstadistica "Total" total;
            mkEstadistica "Completados" completados;
            mkEstadistica "En Proceso" enProceso;
            mkEstadistica "Pendientes" pendientes ] c,
        [], Ok tt)) /\
      (resultado (calcularEstadisticas c) = Ok tt -> estadosLegibles datos)).
Proof.
  split; [|split].
  - repeat constructor.
  - intro s. unfold completadosEstados, pendientesEstados, enProcesoEstados.
    simpl. repeat split; intros [H1 H2];
      repeat match goal with
             | H : _ \/ _ |- _ => destruct H
             | H : False |- _ => destruct H
             end; subst; discriminate.
  - intros c Ht. cbv zeta. repeat split.
    + intros r _. apply cubetas_excluyentes.
    + apply contar_excluyentes, cubetas_excluyentes.
    + intro Hl. rewrite (calcularEstadisticas_pedidos c Ht).
      unfold estadosLegibles in Hl. rewrite Hl. reflexivity.
    + rewrite (calcularEstadisticas_pedidos c Ht). unfold estadosLegibles.
      destruct (forallb (fun r => encadenable (prop r "status")) (datosReporte c));
        [reflexivity|discriminate].
Qed.

Lemma pedidos_cubetas_disjuntas_witness :
  estadisticasResumen (estadoFinal (calcularEstadisticas cuatroPedidos)) =
  [ mkEstadistica "Total" 4; mkEstadistica "Completados" 1;
    mkEstadistica "En Proceso" 1; mkEstadistica "Pendientes" 0 ].
Proof.
  destruct pedidos_cubetas_disjuntas as (_ & _ & H).
  destruct (H cuatroPedidos eq_refl) as (_ & _ & Hc & _).
  rewrite Hc; reflexivity.
Defined.

(* ================================================================== *)
(** * The response: filtering down to nothing                         *)
(* ================================================================== *)

(** Outside the three filtered categories the filter step is the
    identity. *)
Lemma filtrarDatos_identidad (tipo : string) (f : Filtros) (datos : list Registro) :
  ~ In tipo ["clientes"; "pedidos"; "vehiculos"] ->
  filtrarDatos tipo f datos = Ok datos.
Proof.
  intro H. unfold filtrarDatos.
  assert (E1 : String.eqb tipo "clientes" = false)
    by (apply String.eqb_neq; intro; subst; apply H; simpl; tauto).
  assert (E2 : String.eqb tipo "pedidos" = false)
    by (apply String.eqb_neq; intro; subst; apply H; simpl; tauto).
  assert (E3 : String.eqb tipo "vehiculos" = false)
    by (apply String.eqb_neq; intro; subst; apply H; simpl; tauto).
  rewrite E1, E2, E3. reflexivity.
Qed.

Lemma filtrarDatos_reduce (tipo : string) (f : Filtros) (datos : list Registro) :
  datos <> [] ->
  filtrarDatos tipo f datos = Ok [] ->
  tipo = "clientes" \/ tipo = "pedidos" \/ tipo = "vehiculos".
Proof.
  intros Hne Hf.
  destruct (String.eqb_spec tipo "clientes") as [|N1]; [tauto|].
  destruct (String.eqb_spec tipo "pedidos") as [|N2]; [tauto|].
  destruct (String.eqb_spec tipo "vehiculos") as [|N3]; [tauto|].
  exfalso. rewrite filtrarDatos_identidad in Hf.
  - injection Hf as Hf. contradiction.
  - simpl. intros [E|[E|[E|[]]]]; congruence.
Qed.

#[local] Arguments filtrarDatos : simpl never.

(** C5. When the fetch succeeds with a non-empty array and the filters
    leave no row, the callback returns normally with the loading flag
    down, an empty result set, the statistics of the empty set (every one
    of them zero) and the informational message in [error]; it schedules
    one timer, 3000 ms, whose callback sets [error] back to null and
    touches nothing else. *)
Theorem alResponder_vacio_tras_filtro (c : ReportesComponent) (data : list Registro) :
  data <> [] ->
  filtrarDatos (tipoReporte c) (filtros c) data = Ok [] ->
  let r := calcularEstadisticas (set_datosReporte [] (set_loading false c)) in
  let c' := set_error (Some mensajeVacio) (estadoFinal r) in
  alResponder (Exito (Some data)) c = (c', [SetTimeout BorrarError 3000], Ok tt) /\
  resultado r = Ok tt /\
  loading c' = false /\
  datosReporte c' = [] /\
  estadisticasResumen c' <> [] /\
  Forall (fun e => value e = 0%Z) (estadisticasResumen c') /\
  error c' = Some mensajeVacio /\
  disparar BorrarError c' = set_error None c' /\
  error (disparar BorrarError c') = None.
Proof.
  intros Hne Hf.
  pose proof (filtrarDatos_reduce _ _ _ Hne Hf) as Hk.
  destruct data as [|r0 resto]; [contradiction|].
  destruct c as [t d ti l e f es]. simpl in Hf, Hk.
  unfold alResponder, alRecibir, bind, this, evaluar, asignar, efecto.
  destruct Hk as [ -> | [ -> | -> ] ]; simpl; rewrite Hf;
    (repeat split; [discriminate | repeat constructor]).
Qed.

Lemma alResponder_vacio_tras_filtro_witness :
  alResponder (Exito (Some [ [("status", JStr "Inactivo")] ])) clientesFiltroActivo
  = (set_error (Some mensajeVacio)
       (set_estadisticasResumen
          [ mkEstadistica "Total" 0; mkEstadistica "Activos" 0;
            mkEstadistica "Inactivos" 0 ]
          clientesFiltroActivo),
     [SetTimeout BorrarError 3000], Ok tt).
Proof.
  apply (alResponder_vacio_tras_filtro clientesFiltroActivo
           [ [("status", JStr "Inactivo")] ]).
  - discriminate.
  - reflexivity.
Defined.

(* ================================================================== *)
(** * The export guard                                                *)
(* ================================================================== *)

(** C6, as the code has it. On an empty result set [exportarExcel]
    returns normally without producing a download; category, title,
    filters, result set, statistics and loading flag are untouched.  The
    refusal is not local: it overwrites the component's [error] message
    and schedules the 3000 ms timer that sets it to null. *)
Theorem exportarExcel_sin_datos (rt : Runtime) (c : ReportesComponent) :
  datosReporte c = [] ->
  exportarExcel rt c =
  (set_error (Some mensajeSinDatos) c, [SetTimeout BorrarError 3000], Ok tt).
Proof.
  intro H. destruct c as [t d ti l e f es]. simpl in H. subst d.
  reflexivity.
Qed.

Lemma exportarExcel_sin_datos_witness :
  exportarExcel Referencia.rt inicial =
  (set_error (Some mensajeSinDatos) inicial, [SetTimeout BorrarError 3000], Ok tt).
Proof.
  apply (exportarExcel_sin_datos Referencia.rt inicial). reflexivity.
Defined.

(** C6, as stated, fails: after a failed fetch the result set is empty
    and [error] holds the failure message; exporting replaces that
    message, and once the timer has fired it is gone. *)
Lemma exportarExcel_cambia_el_estado :
  datosReporte trasFallo = [] /\
  estadoFinal (exportarExcel Referencia.rt trasFallo) <> trasFallo /\
  disparar BorrarError (estadoFinal (exportarExcel Referencia.rt trasFallo))
    <> trasFallo.
Proof.
  repeat split; discriminate.
Qed.

(* ================================================================== *)
(** * Cell formatting                                                 *)
(* ================================================================== *)

(** C4, at the input where the code departs from it: the cell of a
    record whose [status] is a number.  [getColumnValue] reaches
    [value?.toLowerCase()] with a value that is neither null nor a
    string, and the call throws. *)
Theorem getColumnValue_estado_numerico (rt : Runtime) :
  getColumnValue rt [("id", JNum 7); ("status", JNum 1)] "status"
  = Lanza TypeError.
Proof. reflexivity. Qed.

(** So does every value under [status] that is neither null, undefined
    nor a string. *)
Lemma getColumnValue_estado_no_cadena (rt : Runtime) (item : Registro) :
  encadenable (prop item "status") = false ->
  getColumnValue rt item "status" = Lanza TypeError.
Proof.
  intro H. unfold getColumnValue.
  destruct (prop item "status"); try discriminate H; reflexivity.
Qed.

(** The same holds under the key [priority]. *)
Lemma getColumnValue_prioridad_numerica (rt : Runtime) :
  getColumnValue rt [("priority", JNum 2)] "priority" = Lanza TypeError.
Proof. reflexivity. Qed.

(** Off the two keys that call [toLowerCase], and on them for strings,
    [getColumnValue] does return. *)
Lemma getColumnValue_total_fuera (rt : Runtime) (item : Registro) (key : string) :
  (key = "status" \/ key = "priority" -> encadenable (prop item key) = true) ->
  exists v, getColumnValue rt item key = Ok v.
Proof.
  intro H. unfold getColumnValue, toLocaleStringEsCO.
  destruct (esNulo (prop item key)) eqn:En; [eauto|].
  destruct (includes key "date" || includes key "_at").
  { destruct (dateTimeValue rt (prop item key)); simpl; eauto. }
  destruct (String.eqb_spec key "status") as [E|_].
  { specialize (H (or_introl E)).
    destruct (prop item key); try discriminate; simpl; eauto. }
  destruct (String.eqb_spec key "priority") as [E|_].
  { specialize (H (or_intror E)).
    destruct (prop item key); try discriminate; simpl; eauto. }
  destruct (String.eqb key "value" && String.eqb (typeof (prop item key)) "number");
    [eauto|].
  destruct (String.eqb (typeof (prop item key)) "object"); eauto.
Qed.

(** C8, on the code.  Under a key containing [date] or [_at], a value
    that is not null is handed to [Date] and shown in the es-CO format
    when it is a date; when it is not, the cell is the text
    "Invalid Date" and not the raw value: [toLocaleString] does not throw
    on an invalid date, so the [catch] that would return the raw value is
    never entered. *)
Theorem getColumnValue_fecha (rt : Runtime) (item : Registro) (key : string) :
  includes key "date" || includes key "_at" = true ->
  esNulo (prop item key) = false ->
  (forall t, dateTimeValue rt (prop item key) = Some t ->
             getColumnValue rt item key = Ok (JStr (fechaEsCO rt t))) /\
  (dateTimeValue rt (prop item key) = None ->
   getColumnValue rt item key = Ok (JStr "Invalid Date")).
Proof.
  intros Hk Hn. unfold getColumnValue, toLocaleStringEsCO.
  rewrite Hn, Hk. split.
  - intros t Ht. rewrite Ht. reflexivity.
  - intro Ht. rewrite Ht. reflexivity.
Qed.

Lemma getColumnValue_fecha_witness :
  getColumnValue Referencia.rt [("created_at", JStr "no es fecha")] "created_at"
  = Ok (JStr "Invalid Date")
  /\ getColumnValue Referencia.rt [("created_at", JStr "2024-01-31")] "created_at"
     = Ok (JStr "31/01/2024, 00:00").
Proof.
  split.
  - apply (getColumnValue_fecha Referencia.rt
             [("created_at", JStr "no es fecha")] "created_at"); reflexivity.
  - apply (proj1 (getColumnValue_fecha Referencia.rt
                      [("created_at", JStr "2024-01-31")] "created_at"
                      eq_refl eq_refl) 1706659200000%Z).
    reflexivity.
Defined.

(* ================================================================== *)
(** * Filtering: what is kept                                         *)
(* ================================================================== *)

Section FiltroQueLanza.

Context {A : Type} (cb : A -> Resultado bool).

(** What a returning filter kept is what its callback answered [true] on. *)
Lemma filterR_filter (arr ys : list A) :
  filterR cb arr = Ok ys ->
  ys = filter (fun x => match cb x with Ok b => b | Lanza _ => false end) arr.
Proof.
  revert ys. induction arr as [|x resto IH]; simpl; intros ys H.
  - now injection H as <-.
  - destruct (cb x) as [b|e]; [|discriminate].
    destruct (filterR cb resto) as [zs|e]; [|discriminate].
    injection H as <-. rewrite <- (IH zs eq_refl).
    destruct b; reflexivity.
Qed.

(** Filtering again what a filter kept keeps all of it. *)
Lemma filterR_idem (arr ys : list A) :
  filterR cb arr = Ok ys -> filterR cb ys = Ok ys.
Proof.
  revert ys. induction arr as [|x resto IH]; simpl; intros ys H.
  - now injection H as <-.
  - destruct (cb x) as [b|e] eqn:Ex; [|discriminate].
    destruct (filterR cb resto) as [zs|e]; [|discriminate].
    injection H as <-. specialize (IH zs eq_refl).
    destruct b; [|exact IH].
    simpl. rewrite Ex, IH. reflexivity.
Qed.

End FiltroQueLanza.

Lemma campoLower_spec (r : Registro) (campo : string) :
  campoLower r campo =
  if encadenable (prop r campo)
  then Ok (match prop r campo with
           | JStr s => JStr (toLowerCase s)
           | _ => JUndefined
           end)
  else Lanza TypeError.
Proof.
  unfold campoLower. destruct (prop r campo); reflexivity.
Qed.


Lemma filtroEn_spec (arr : list string) (datos : list Registro) :
  filterR (fun item => bindR (campoLower item "status")
                             (fun s => Ok (arrIncludes arr s))) datos
  = if camposLegibles "status" datos
    then Ok (filter (estadoEn arr) datos) else Lanza TypeError.
Proof.
  unfold camposLegibles.
  apply filterR_spec. intro r. rewrite campoLower_spec. unfold estadoEn.
  destruct (prop r "status"); reflexivity.
Qed.

Lemma truthy_true (s : string) : s <> "" -> truthy s = true.
Proof. apply truthy_iff. Qed.

(** X1. With the three client-side criteria empty nothing is filtered,
    whatever the category and whatever the rows hold. *)
Theorem filtrarDatos_sin_criterios (tipo : string) (f : Filtros) (datos : list Registro) :
  estado f = "" -> estadoPedido f = "" -> tipoVehiculo f = "" ->
  filtrarDatos tipo f datos = Ok datos.
Proof.
  intros E1 E2 E3. unfold filtrarDatos. rewrite E1, E2, E3. simpl.
  rewrite !andb_false_r. reflexivity.
Qed.

Lemma filtrarDatos_sin_criterios_witness :
  filtrarDatos "clientes" (mkFiltros "2024-01-01" "" "" "" "" "9" "")
               [ [("status", JNum 3)] ]
  = Ok [ [("status", JNum 3)] ].
Proof.
  apply filtrarDatos_sin_criterios; reflexivity.
Defined.







(* ================================================================== *)
(** * Filtering: order, idempotence, letter case                      *)
(* ================================================================== *)

Section Etapas.

Context {A : Type} (activo : bool) (cb : A -> Resultado bool).

(** One conditional filter step of [filtrarDatos]. *)
Lemma etapa_filter (arr ys : list A) :
  (if activo then filterR cb arr else Ok arr) = Ok ys ->
  exists p, ys = filter p arr.
Proof.
  destruct activo; intro H.
  - eexists. apply filterR_filter. exact H.
  - injection H as <-. exists (fun _ => true).
    symmetry. apply forallb_filter_id. now apply forallb_forall.
Qed.

Lemma filterR_acepta (arr ys : list A) :
  filterR cb arr = Ok ys -> forall x, In x ys -> cb x = Ok true.
Proof.
  revert ys. induction arr as [|a resto IH]; simpl; intros ys H x Hx.
  - injection H as <-. destruct Hx.
  - destruct (cb a) as [b|e] eqn:Ea; [|discriminate].
    destruct (filterR cb resto) as [zs|e]; [|discriminate].
    injection H as <-. destruct b; [destruct Hx as [<-|Hx]|]; eauto.
Qed.

Lemma filterR_todos (zs : list A) :
  (forall x, In x zs -> cb x = Ok true) -> filterR cb zs = Ok zs.
Proof.
  induction zs as [|a resto IH]; simpl; intro H; [reflexivity|].
  rewrite (H a (or_introl eq_refl)), IH; [reflexivity|].
  intros x Hx. apply H. now right.
Qed.

Lemma etapa_fija (arr ys zs : list A) :
  (if activo then filterR cb arr else Ok arr) = Ok ys ->
  (forall x, In x zs -> In x ys) ->
  (if activo then filterR cb zs else Ok zs) = Ok zs.
Proof.
  destruct activo; intros H Hin; [|reflexivity].
  apply filterR_todos. intros x Hx.
  eapply filterR_acepta; [exact H|]. now apply Hin.
Qed.

End Etapas.

Lemma filter_filter {A : Type} (p q : A -> bool) (l : list A) :
  filter q (filter p l) = filter (fun x => p x && q x) l.
Proof.
  induction l as [|x l IH]; simpl; [reflexivity|].
  destruct (p x); simpl; [destruct (q x)|]; now rewrite IH.
Qed.

Lemma filter_In_sub {A : Type} (p : A -> bool) (l : list A) (x : A) :
  In x (filter p l) -> In x l.
Proof. intro H. now apply filter_In in H. Qed.

Lemma filter_length_le {A : Type} (p : A -> bool) (l : list A) :
  (length (filter p l) <= length l)%nat.
Proof.
  induction l as [|x l IH]; simpl; [lia|]. destruct (p x); simpl; lia.
Qed.

(** X5. Whatever the category and the criteria, when the filter step returns
    it returns a selection of the rows it was given: some rows dropped,
    none added, changed or reordered. *)
Theorem filtrarDatos_es_seleccion
  (tipo : string) (f : Filtros) (datos salida : list Registro) :
  filtrarDatos tipo f datos = Ok salida ->
  (exists p, salida = filter p datos) /\
  (length salida <= length datos)%nat.
Proof.
  intro H.
  assert (Hp : exists p, salida = filter p datos).
  { unfold filtrarDatos, bindR in H.
    match type of H with
    | context [if ?b1 then filterR ?c1 datos else Ok datos] =>
        destruct (if b1 then filterR c1 datos else Ok datos) as [d1|] eqn:E1;
          [|discriminate]
    end.
    match type of H with
    | context [if ?b2 then filterR ?c2 d1 else Ok d1] =>
        destruct (if b2 then filterR c2 d1 else Ok d1) as [d2|] eqn:E2;
          [|discriminate]
    end.
    apply etapa_filter in E1, E2, H.
    destruct E1 as [p1 ->], E2 as [p2 ->], H as [p3 ->].
    rewrite !filter_filter. eauto. }
  split; [exact Hp|].
  destruct Hp as [p ->]. apply filter_length_le.
Qed.

Lemma filtrarDatos_es_seleccion_witness :
  (length [ [("id", JNum 2); ("status", JStr "pending")] ]
   <= length [ [("id", JNum 1); ("status", JStr "entregado")];
               [("id", JNum 2); ("status", JStr "pending")] ])%nat.
Proof.
  apply (filtrarDatos_es_seleccion "pedidos"
           (mkFiltros "" "" "" "pendiente" "" "" "")).
  reflexivity.
Defined.

(** X6. Filtering is idempotent: passing the rows it returned through the
    same filter again returns them all, without throwing. *)
Theorem filtrarDatos_idempotente
  (tipo : string) (f : Filtros) (datos salida : list Registro) :
  filtrarDatos tipo f datos = Ok salida ->
  filtrarDatos tipo f salida = Ok salida.
Proof.
  intro H. unfold filtrarDatos, bindR in *.
  match type of H with
  | context [if ?b1 then filterR ?c1 datos else Ok datos] =>
      destruct (if b1 then filterR c1 datos else Ok datos) as [d1|] eqn:E1;
        [|discriminate]
  end.
  match type of H with
  | context [if ?b2 then filterR ?c2 d1 else Ok d1] =>
      destruct (if b2 then filterR c2 d1 else Ok d1) as [d2|] eqn:E2;
        [|discriminate]
  end.
  assert (H3 : forall x, In x salida -> In x d2).
  { destruct (etapa_filter _ _ _ _ H) as [p ->]. intro x. apply filter_In_sub. }
  assert (H2 : forall x, In x d2 -> In x d1).
  { destruct (etapa_filter _ _ _ _ E2) as [p ->]. intro x. apply filter_In_sub. }
  rewrite (etapa_fija _ _ _ _ salida E1) by auto.
  rewrite (etapa_fija _ _ _ _ salida E2) by auto.
  apply (etapa_fija _ _ _ _ salida H). auto.
Qed.

Lemma filtrarDatos_idempotente_witness :
  filtrarDatos "vehiculos" (mkFiltros "" "" "" "" "moto" "" "")
               [ [("vehicle_type", JStr "Moto")] ]
  = Ok [ [("vehicle_type", JStr "Moto")] ].
Proof.
  apply (filtrarDatos_idempotente "vehiculos" _
           [ [("vehicle_type", JStr "Moto")]; [("vehicle_type", JStr "camion")] ]).
  reflexivity.
Defined.




(* ================================================================== *)
(** * Statistics: every category                                      *)
(* ================================================================== *)

Lemma set_estadisticasResumen_mismo (c : ReportesComponent) :
  set_estadisticasResumen (estadisticasResumen c) c = c.
Proof. destruct c; reflexivity. Qed.

Lemma calcularEstadisticas_clientes_si (c : ReportesComponent) :
  tipoReporte c = "clientes" ->
  calcularEstadisticas c =
  if camposLegibles "status" (datosReporte c)
  then (set_estadisticasResumen
          [ mkEstadistica "Total" (Z.of_nat (length (datosReporte c)));
            mkEstadistica "Activos" (contar (estadoEs "activo") (datosReporte c));
            mkEstadistica "Inactivos"
              (Z.of_nat (length (datosReporte c))
               - contar (estadoEs "activo") (datosReporte c))%Z ]
          c, [], Ok tt)
  else (c, [], Lanza TypeError).
Proof.
  intro Ht. destruct c as [t d ti l e f es]. simpl in *. subst t.
  unfold calcularEstadisticas, bind, this, evaluar, asignar, camposLegibles. simpl.
  rewrite contarIgual_spec.
  destruct (forallb (fun r => encadenable (prop r "status")) d); reflexivity.
Qed.

Lemma calcularEstadisticas_vehiculos_si (c : ReportesComponent) :
  tipoReporte c = "vehiculos" ->
  calcularEstadisticas c =
  if camposLegibles "status" (datosReporte c)
  then (set_estadisticasResumen
          [ mkEstadistica "Total" (Z.of_nat (length (datosReporte c)));
            mkEstadistica "Disponibles" (contar (estadoEs "disponible") (datosReporte c));
            mkEstadistica "No Disponibles"
              (Z.of_nat (length (datosReporte c))
               - contar (estadoEs "disponible") (datosReporte c))%Z ]
          c, [], Ok tt)
  else (c, [], Lanza TypeError).
Proof.
  intro Ht. destruct c as [t d ti l e f es]. simpl in *. subst t.
  unfold calcularEstadisticas, bind, this, evaluar, asignar, camposLegibles. simpl.
  rewrite contarIgual_spec.
  destruct (forallb (fun r => encadenable (prop r "status")) d); reflexivity.
Qed.

Lemma calcularEstadisticas_pedidos_si (c : ReportesComponent) :
  tipoReporte c = "pedidos" ->
  calcularEstadisticas c =
  if camposLegibles "status" (datosReporte c)
  then (set_estadisticasResumen
          [ mkEstadistica "Total" (Z.of_nat (length (datosReporte c)));
            mkEstadistica "Completados" (contar (estadoEn completadosEstados) (datosReporte c));
            mkEstadistica "En Proceso" (contar (estadoEn enProcesoEstados) (datosReporte c));
            mkEstadistica "Pendientes" (contar (estadoEn pendientesEstados) (datosReporte c)) ]
          c, [], Ok tt)
  else (c, [], Lanza TypeError).
Proof. exact (calcularEstadisticas_pedidos c). Qed.

Lemma calcularEstadisticas_conductores_si (c : ReportesComponent) :
  tipoReporte c = "conductores" ->
  calcularEstadisticas c =
  (set_estadisticasResumen
     [ mkEstadistica "Rutas Completadas" (Z.of_nat (length (datosReporte c))) ] c,
   [], Ok tt).
Proof.
  intro Ht. destruct c as [t d ti l e f es]. simpl in *. subst t. reflexivity.
Qed.

Lemma calcularEstadisticas_desconocido (c : ReportesComponent) :
  ~ In (tipoReporte c) tiposConocidos ->
  calcularEstadisticas c = (c, [], Ok tt).
Proof.
  intro H. apply no_conocido in H. destruct H as (H1 & H2 & H3 & H4).
  destruct c as [t d ti l e f es]. simpl in *.
  unfold calcularEstadisticas, bind, this. simpl.
  rewrite H1, H2, H3, H4. reflexivity.
Qed.

Lemma conocido_dec (t : string) :
  t = "pedidos" \/ t = "clientes" \/ t = "vehiculos" \/ t = "conductores"
  \/ ~ In t tiposConocidos.
Proof.
  destruct (String.eqb_spec t "pedidos"); [tauto|].
  destruct (String.eqb_spec t "clientes"); [tauto|].
  destruct (String.eqb_spec t "vehiculos"); [tauto|].
  destruct (String.eqb_spec t "conductores"); [tauto|].
  right; right; right; right. simpl. intuition congruence.
Qed.

(** [calcularEstadisticas] writes no field but the statistics, and asks
    for no effect, whether it returns or throws. *)
Lemma calcularEstadisticas_forma (c : ReportesComponent) :
  exists es r, calcularEstadisticas c = (set_estadisticasResumen es c, [], r).
Proof.
  destruct (conocido_dec (tipoReporte c)) as [H|[H|[H|[H|H]]]].
  - rewrite (calcularEstadisticas_pedidos_si c H).
    destruct (camposLegibles "status" (datosReporte c)); [eauto|].
    exists (estadisticasResumen c), (Lanza TypeError).
    now rewrite set_estadisticasResumen_mismo.
  - rewrite (calcularEstadisticas_clientes_si c H).
    destruct (camposLegibles "status" (datosReporte c)); [eauto|].
    exists (estadisticasResumen c), (Lanza TypeError).
    now rewrite set_estadisticasResumen_mismo.
  - rewrite (calcularEstadisticas_vehiculos_si c H).
    destruct (camposLegibles "status" (datosReporte c)); [eauto|].
    exists (estadisticasResumen c), (Lanza TypeError).
    now rewrite set_estadisticasResumen_mismo.
  - rewrite (calcularEstadisticas_conductores_si c H). eauto.
  - rewrite (calcularEstadisticas_desconocido c H).
    exists (estadisticasResumen c), (Ok tt).
    now rewrite set_estadisticasResumen_mismo.
Qed.

(** X8. Vehicles, for a result set whose status fields are strings, null or
    absent: Total is the number of rows, Disponibles the number of rows
    whose status lower-cases to "disponible", No Disponibles the rest. *)
Theorem calcularEstadisticas_vehiculos (c : ReportesComponent) :
  tipoReporte c = "vehiculos" ->
  estadosLegibles (datosReporte c) ->
  let total := Z.of_nat (length (datosReporte c)) in
  let disponibles := contar (estadoEs "disponible") (datosReporte c) in
  calcularEstadisticas c =
  (set_estadisticasResumen
     [ mkEstadistica "Total" total;
       mkEstadistica "Disponibles" disponibles;
       mkEstadistica "No Disponibles" (total - disponibles)%Z ] c,
   [], Ok tt)
  /\ (0 <= disponibles <= total)%Z.
Proof.
  intros Ht Hl. cbv zeta. split.
  - rewrite (calcularEstadisticas_vehiculos_si c Ht).
    unfold estadosLegibles in Hl. unfold camposLegibles. rewrite Hl. reflexivity.
  - unfold contar. pose proof (filter_length_le (estadoEs "disponible") (datosReporte c)).
    lia.
Qed.

Lemma calcularEstadisticas_vehiculos_witness :
  estadisticasResumen (estadoFinal (calcularEstadisticas tresVehiculos)) =
  [ mkEstadistica "Total" 3; mkEstadistica "Disponibles" 2;
    mkEstadistica "No Disponibles" 1 ].
Proof.
  rewrite (proj1 (calcularEstadisticas_vehiculos tresVehiculos eq_refl eq_refl)).
  reflexivity.
Defined.

(** X9. When [calcularEstadisticas] throws.  It throws exactly when the
    category is one of the three that read [status] and some row's status
    is neither a string, null nor absent; the driver category never reads
    a row.  A throw leaves the component as it was, previous statistics
    included. *)
Theorem calcularEstadisticas_lanza_sii (c : ReportesComponent) :
  (resultado (calcularEstadisticas c) = Lanza TypeError <->
   In (tipoReporte c) ["pedidos"; "clientes"; "vehiculos"]
   /\ camposLegibles "status" (datosReporte c) = false) /\
  (resultado (calcularEstadisticas c) = Lanza TypeError ->
   estadoFinal (calcularEstadisticas c) = c) /\
  efectos (calcularEstadisticas c) = [].
Proof.
  destruct (conocido_dec (tipoReporte c)) as [H|[H|[H|[H|H]]]].
  - rewrite (calcularEstadisticas_pedidos_si c H), H.
    destruct (camposLegibles "status" (datosReporte c)); simpl;
      repeat split; try discriminate; try tauto. intros [_ ?]; discriminate.
  - rewrite (calcularEstadisticas_clientes_si c H), H.
    destruct (camposLegibles "status" (datosReporte c)); simpl;
      repeat split; try discriminate; try tauto. intros [_ ?]; discriminate.
  - rewrite (calcularEstadisticas_vehiculos_si c H), H.
    destruct (camposLegibles "status" (datosReporte c)); simpl;
      repeat split; try discriminate; try tauto. intros [_ ?]; discriminate.
  - rewrite (calcularEstadisticas_conductores_si c H), H. simpl.
    repeat split; try discriminate.
    intros [[E|[E|[E|[]]]] _]; discriminate.
  - rewrite (calcularEstadisticas_desconocido c H). simpl.
    repeat split; try discriminate.
    intros [Hin _]. exfalso. apply H. simpl in *. tauto.
Qed.

(** X10. Statistics stay within the table they summarise: for a known
    category, when the computation returns, there is at least one
    statistic, the first is the number of rows, and each lies between 0
    and the number of rows. *)
Theorem estadisticas_acotadas (c : ReportesComponent) :
  In (tipoReporte c) tiposConocidos ->
  resultado (calcularEstadisticas c) = Ok tt ->
  let n := Z.of_nat (length (datosReporte c)) in
  let es := estadisticasResumen (estadoFinal (calcularEstadisticas c)) in
  option_map value (hd_error es) = Some n /\
  Forall (fun e => 0 <= value e <= n)%Z es.
Proof.
  intros Hk Hr. cbv zeta.
  assert (Hc : forall p, (0 <= contar p (datosReporte c)
                          <= Z.of_nat (length (datosReporte c)))%Z).
  { intro p. unfold contar. pose proof (filter_length_le p (datosReporte c)). lia. }
  pose proof (contar_excluyentes _ _ _ (datosReporte c) cubetas_excluyentes) as Hs.
  pose proof (Hc (estadoEn completadosEstados)).
  pose proof (Hc (estadoEn enProcesoEstados)).
  pose proof (Hc (estadoEn pendientesEstados)).
  pose proof (Hc (estadoEs "activo")).
  pose proof (Hc (estadoEs "disponible")).
  destruct (conocido_dec (tipoReporte c)) as [Ht|[Ht|[Ht|[Ht|Ht]]]];
    [ | | | |contradiction].
  - rewrite (calcularEstadisticas_pedidos_si c Ht) in *.
    destruct (camposLegibles "status" (datosReporte c)); [|discriminate].
    destruct c; simpl in *. split; [reflexivity|]. repeat constructor; simpl; lia.
  - rewrite (calcularEstadisticas_clientes_si c Ht) in *.
    destruct (camposLegibles "status" (datosReporte c)); [|discriminate].
    destruct c; simpl in *. split; [reflexivity|]. repeat constructor; simpl; lia.
  - rewrite (calcularEstadisticas_vehiculos_si c Ht) in *.
    destruct (camposLegibles "status" (datosReporte c)); [|discriminate].
    destruct c; simpl in *. split; [reflexivity|]. repeat constructor; simpl; lia.
  - rewrite (calcularEstadisticas_conductores_si c Ht) in *.
    destruct c; simpl in *. split; [reflexivity|]. repeat constructor; simpl; lia.
Qed.

Lemma estadisticas_acotadas_witness :
  Forall (fun e => 0 <= value e <= 4)%Z
         (estadisticasResumen (estadoFinal (calcularEstadisticas cuatroPedidos))).
Proof.
  apply (estadisticas_acotadas cuatroPedidos).
  - simpl. tauto.
  - reflexivity.
Defined.

(* ================================================================== *)
(** * The response handler as a whole                                 *)
(* ================================================================== *)

#[local] Arguments calcularEstadisticas : simpl never.

Lemma filtrarDatos_nil (tipo : string) (f : Filtros) :
  filtrarDatos tipo f [] = Ok [].
Proof.
  unfold filtrarDatos.
  destruct (String.eqb tipo "clientes" && truthy (estado f));
    destruct (String.eqb tipo "pedidos" && truthy (estadoPedido f));
    destruct (String.eqb tipo "vehiculos" && truthy (tipoVehiculo f));
    reflexivity.
Qed.

(** On an empty table the statistics are computed without reading a row. *)
Lemma calcularEstadisticas_vacio (c : ReportesComponent) :
  datosReporte c = [] ->
  exists es, calcularEstadisticas c = (set_estadisticasResumen es c, [], Ok tt).
Proof.
  intro Hd.
  destruct (conocido_dec (tipoReporte c)) as [H|[H|[H|[H|H]]]].
  - rewrite (calcularEstadisticas_pedidos_si c H), Hd. simpl. eauto.
  - rewrite (calcularEstadisticas_clientes_si c H), Hd. simpl. eauto.
  - rewrite (calcularEstadisticas_vehiculos_si c H), Hd. simpl. eauto.
  - rewrite (calcularEstadisticas_conductores_si c H). eauto.
  - rewrite (calcularEstadisticas_desconocido c H).
    exists (estadisticasResumen c). now rewrite set_estadisticasResumen_mismo.
Qed.

(** The callback on an array, once the filter has returned. *)
Lemma alRecibir_pasos (c : ReportesComponent) (data salida : list Registro)
      (es : list Estadistica) (r : Resultado unit) :
  filtrarDatos (tipoReporte c) (filtros c) data = Ok salida ->
  calcularEstadisticas (set_datosReporte salida (set_loading false c))
  = (set_estadisticasResumen es (set_datosReporte salida (set_loading false c)),
     [], r) ->
  alRecibir (Some data) c =
  match r with
  | Lanza e =>
      (set_estadisticasResumen es (set_datosReporte salida (set_loading false c)),
       [], Lanza e)
  | Ok _ =>
      if Nat.eqb (length salida) 0 && Nat.ltb 0 (length data)
      then (set_error (Some mensajeVacio)
              (set_estadisticasResumen es
                 (set_datosReporte salida (set_loading false c))),
            [SetTimeout BorrarError 3000], Ok tt)
      else (set_estadisticasResumen es
              (set_datosReporte salida (set_loading false c)), [], Ok tt)
  end.
Proof.
  intros Hf Hc. destruct c as [t d ti l e f es0]. simpl in *.
  unfold alRecibir, bind, this, evaluar, asignar, efecto, ret. simpl.
  rewrite Hf. simpl. rewrite Hc.
  destruct r as [[]|ex]; [|reflexivity]. simpl.
  destruct (Nat.eqb (length salida) 0); [|reflexivity].
  destruct (Nat.ltb 0 (length data)); reflexivity.
Qed.

(** And when the filter throws. *)
Lemma alRecibir_filtro_lanza (c : ReportesComponent) (data : list Registro)
      (e : Excepcion) :
  filtrarDatos (tipoReporte c) (filtros c) data = Lanza e ->
  alRecibir (Some data) c = (set_loading false c, [], Lanza e).
Proof.
  intro Hf. destruct c as [t d ti l e0 f es0]. simpl in *.
  unfold alRecibir, bind, this, evaluar, asignar. simpl.
  rewrite Hf. reflexivity.
Qed.

Lemma alRecibir_nulo (c : ReportesComponent) :
  exists es,
    alRecibir None c =
    (set_estadisticasResumen es (set_datosReporte [] (set_loading false c)),
     [], Lanza TypeError).
Proof.
  destruct (calcularEstadisticas_forma (set_datosReporte [] (set_loading false c)))
    as (es & r & Hc).
  assert (Hr : r = Ok tt).
  { destruct (calcularEstadisticas_vacio
                (set_datosReporte [] (set_loading false c))) as [es' Hv];
      [destruct c; reflexivity|].
    rewrite Hv in Hc. now injection Hc as _ <-. }
  subst r. exists es.
  destruct c as [t d ti l e f es0].
  unfold alRecibir, bind, this, evaluar, asignar, efecto, ret. simpl.
  rewrite filtrarDatos_nil. simpl. rewrite Hc.
  reflexivity.
Qed.

Lemma alRecibir_marco (data : option (list Registro)) (c : ReportesComponent) :
  let c' := estadoFinal (alRecibir data c) in
  loading c' = false /\ tipoReporte c' = tipoReporte c /\
  tituloReporte c' = tituloReporte c /\ filtros c' = filtros c.
Proof.
  cbv zeta. destruct data as [data|].
  - destruct (filtrarDatos (tipoReporte c) (filtros c) data) as [salida|e] eqn:Hf.
    + destruct (calcularEstadisticas_forma
                  (set_datosReporte salida (set_loading false c))) as (es & r & Hc).
      rewrite (alRecibir_pasos c data salida es r Hf Hc).
      destruct r as [u|e]; [|now destruct c].
      destruct (Nat.eqb (length salida) 0 && Nat.ltb 0 (length data)); now destruct c.
    + rewrite (alRecibir_filtro_lanza c data e Hf). now destruct c.
  - destruct (alRecibir_nulo c) as [es ->]. now destruct c.
Qed.

Lemma alResponder_fallo_estado (err : HttpErrorResponse) (c : ReportesComponent) :
  alResponder (Fallo err) c = alRecibir (Some []) (estadoFinal (alFallar err c)).
Proof.
  unfold alResponder, bind, alFallar, asignar, estadoFinal. simpl.
  destruct (alRecibir (Some []) _) as [[c2 es2] r]. reflexivity.
Qed.

(** X11. Whatever comes back, a response lowers the loading flag and leaves
    category, title and filters alone: a body that is an array, a null
    body, a failure, and also when filtering or the statistics throw. *)
Theorem alResponder_marco (resp : Respuesta) (c : ReportesComponent) :
  let c' := estadoFinal (alResponder resp c) in
  loading c' = false /\ tipoReporte c' = tipoReporte c /\
  tituloReporte c' = tituloReporte c /\ filtros c' = filtros c.
Proof.
  cbv zeta. destruct resp as [data|err].
  - exact (alRecibir_marco data c).
  - rewrite alResponder_fallo_estado.
    destruct (alRecibir_marco (Some []) (estadoFinal (alFallar err c)))
      as (H1 & H2 & H3 & H4).
    rewrite H1, H2, H3, H4. now destruct c.
Qed.


(** X13. A successful response whose body is [null]: the handler empties the
    table and then throws, on reading the length of the body.  No message
    is set. *)
Theorem alResponder_cuerpo_nulo (c : ReportesComponent) :
  let r := alResponder (Exito None) c in
  resultado r = Lanza TypeError /\ efectos r = [] /\
  datosReporte (estadoFinal r) = [] /\
  error (estadoFinal r) = error c.
Proof.
  cbv zeta. simpl. destruct (alRecibir_nulo c) as [es ->].
  now destruct c.
Qed.

(** X14. With an empty or unknown category a successful response is stored as
    it came: no row is filtered out whatever the criteria, the statistics
    of the previous report stay on screen, no message is set. *)
Theorem alResponder_tipo_desconocido (c : ReportesComponent) (data : list Registro) :
  ~ In (tipoReporte c) tiposConocidos ->
  alResponder (Exito (Some data)) c
  = (set_datosReporte data (set_loading false c), [], Ok tt).
Proof.
  intro H. simpl.
  assert (Hf : filtrarDatos (tipoReporte c) (filtros c) data = Ok data).
  { apply filtrarDatos_identidad. intro Hin. apply H. simpl in *. tauto. }
  set (c1 := set_datosReporte data (set_loading false c)).
  assert (Hc : calcularEstadisticas c1
               = (set_estadisticasResumen (estadisticasResumen c1) c1, [], Ok tt)).
  { rewrite set_estadisticasResumen_mismo. apply calcularEstadisticas_desconocido.
    subst c1. now destruct c. }
  rewrite (alRecibir_pasos c data data _ (Ok tt) Hf Hc).
  rewrite set_estadisticasResumen_mismo.
  destruct data; reflexivity.
Qed.

Lemma alResponder_tipo_desconocido_witness :
  alResponder (Exito (Some [ [("status", JNum 1)] ]))
              (set_estadisticasResumen [mkEstadistica "Total" 9] inicial)
  = (set_datosReporte [ [("status", JNum 1)] ]
       (set_estadisticasResumen [mkEstadistica "Total" 9] inicial), [], Ok tt).
Proof.
  apply (alResponder_tipo_desconocido
           (set_estadisticasResumen [mkEstadistica "Total" 9] inicial)).
  simpl. intros [H|[H|[H|[H|[]]]]]; discriminate.
Defined.



(* ================================================================== *)
(** * The order filter and the order statistics agree                 *)
(* ================================================================== *)

Ltac casos_cadena t :=
  repeat match goal with
         | |- context [String.eqb t ?lit] =>
             destruct (String.eqb_spec t lit);
             [subst t; simpl; intros; try reflexivity; try lia; try discriminate|]
         end.

Ltac cadenas :=
  let s := fresh "s" in
  intro s; unfold strIn; simpl; casos_cadena s;
  intros; try reflexivity; try discriminate.

Lemma estadoEn_ext (a b : list string) :
  (forall s, strIn s a = strIn s b) -> forall r, estadoEn a r = estadoEn b r.
Proof.
  intros H r. unfold estadoEn. destruct (prop r "status"); auto.
Qed.

Lemma estadoEn_excl (a b : list string) :
  (forall s, strIn s a = true -> strIn s b = false) ->
  forall r, estadoEn a r = true -> estadoEn b r = false.
Proof.
  intros H r. unfold estadoEn. destruct (prop r "status"); auto.
Qed.

Lemma contar_filter_mismo (p q : Registro -> bool) (l : list Registro) :
  (forall r, p r = q r) ->
  contar q (filter p l) = Z.of_nat (length (filter p l)).
Proof.
  intro H. unfold contar. f_equal. f_equal.
  rewrite filter_filter. apply filter_ext. intro r. rewrite H.
  now destruct (q r).
Qed.

Lemma contar_filter_excl (p q : Registro -> bool) (l : list Registro) :
  (forall r, p r = true -> q r = false) ->
  contar q (filter p l) = 0%Z.
Proof.
  intro H. unfold contar. rewrite filter_filter.
  induction l as [|r l IH]; [reflexivity|]. simpl.
  destruct (p r) eqn:E; simpl; [rewrite (H r E); simpl|]; exact IH.
Qed.

Lemma camposLegibles_filter (campo : string) (p : Registro -> bool) (l : list Registro) :
  camposLegibles campo l = true -> camposLegibles campo (filter p l) = true.
Proof.
  unfold camposLegibles. rewrite !forallb_forall. intros H r Hr.
  apply H. now apply filter_In in Hr.
Qed.

(** The statistics the handler stores for orders filtered by status. *)
Lemma pedidos_filtrados (c : ReportesComponent) (data : list Registro)
      (arr : list string) :
  tipoReporte c = "pedidos" ->
  camposLegibles "status" data = true ->
  estadoPedido (filtros c) <> "" ->
  estadosBuscar (toLowerCase (estadoPedido (filtros c))) = Some arr ->
  let salida := filter (estadoEn arr) data in
  estadisticasResumen (estadoFinal (alResponder (Exito (Some data)) c)) =
  [ mkEstadistica "Total" (Z.of_nat (length salida));
    mkEstadistica "Completados" (contar (estadoEn completadosEstados) salida);
    mkEstadistica "En Proceso" (contar (estadoEn enProcesoEstados) salida);
    mkEstadistica "Pendientes" (contar (estadoEn pendientesEstados) salida) ].
Proof.
  intros Ht Hl He Ha salida. simpl.
  assert (Hf : filtrarDatos (tipoReporte c) (filtros c) data = Ok salida).
  { rewrite Ht. unfold filtrarDatos. rewrite (truthy_true _ He). simpl.
    rewrite Ha, filtroEn_spec, Hl. reflexivity. }
  set (c1 := set_datosReporte salida (set_loading false c)).
  assert (Hc : calcularEstadisticas c1 =
               (set_estadisticasResumen
                  [ mkEstadistica "Total" (Z.of_nat (length salida));
                    mkEstadistica "Completados" (contar (estadoEn completadosEstados) salida);
                    mkEstadistica "En Proceso" (contar (estadoEn enProcesoEstados) salida);
                    mkEstadistica "Pendientes" (contar (estadoEn pendientesEstados) salida) ]
                  c1, [], Ok tt)).
  { rewrite (calcularEstadisticas_pedidos_si c1) by (subst c1; now destruct c).
    replace (datosReporte c1) with salida by (subst c1; now destruct c).
    subst salida. rewrite (camposLegibles_filter _ _ _ Hl). reflexivity. }
  rewrite (alRecibir_pasos c data salida _ (Ok tt) Hf Hc).
  destruct (Nat.eqb (length salida) 0 && Nat.ltb 0 (length data)); reflexivity.
Qed.

(** X16. Each row of the filter's synonym table that has a statistic accepts
    the same spellings as that statistic's bucket; so, for orders whose
    statuses are strings, null or absent, filtering by "completado",
    "en_proceso" or "pendiente" (in any letter case) makes that statistic
    equal to Total and the other two zero, and filtering by "cancelado"
    makes all three zero. *)
Theorem pedidos_filtro_y_estadisticas (c : ReportesComponent) (data : list Registro) :
  tipoReporte c = "pedidos" ->
  camposLegibles "status" data = true ->
  let k := toLowerCase (estadoPedido (filtros c)) in
  let valores :=
    map value (estadisticasResumen
                 (estadoFinal (alResponder (Exito (Some data)) c))) in
  (k = "completado" ->
   valores = [ contar (estadoEn completadosEstados) data;
               contar (estadoEn completadosEstados) data; 0; 0 ]%Z) /\
  (k = "en_proceso" ->
   valores = [ contar (estadoEn enProcesoEstados) data; 0;
               contar (estadoEn enProcesoEstados) data; 0 ]%Z) /\
  (k = "pendiente" ->
   valores = [ contar (estadoEn pendientesEstados) data; 0; 0;
               contar (estadoEn pendientesEstados) data ]%Z) /\
  (k = "cancelado" ->
   valores = [ contar (estadoEn canceladosEstados) data; 0; 0; 0 ]%Z).
Proof.
  intros Ht Hl k valores.
  assert (Hne : k <> "" -> estadoPedido (filtros c) <> "").
  { intros Hk E. apply Hk. subst k. now rewrite E. }
  assert (Hex : forall a b,
             (forall s, strIn s a = true -> strIn s b = false) ->
             contar (estadoEn b) (filter (estadoEn a) data) = 0%Z).
  { intros a b H. apply contar_filter_excl, estadoEn_excl, H. }
  assert (Hsame : forall a b,
             (forall s, strIn s a = strIn s b) ->
             contar (estadoEn b) (filter (estadoEn a) data)
             = contar (estadoEn b) data
             /\ Z.of_nat (length (filter (estadoEn a) data))
                = contar (estadoEn b) data).
  { intros a b H.
    rewrite (contar_filter_mismo _ _ _ (estadoEn_ext a b H)).
    unfold contar. rewrite (filter_ext _ _ (estadoEn_ext a b H)). auto. }
  repeat split; intro Hk; subst valores;
    rewrite (pedidos_filtrados c data _ Ht Hl
               (Hne ltac:(rewrite Hk; discriminate))
               ltac:(fold k; rewrite Hk; reflexivity));
    cbn [map value].
  - destruct (Hsame ["completado"; "entregado"; "delivered"] completadosEstados
                ltac:(cadenas)) as [-> ->].
    rewrite (Hex ["completado"; "entregado"; "delivered"] enProcesoEstados
               ltac:(cadenas)).
    rewrite (Hex ["completado"; "entregado"; "delivered"] pendientesEstados
               ltac:(cadenas)).
    reflexivity.
  - destruct (Hsame ["en_proceso"; "asignado"; "in_transit"] enProcesoEstados
                ltac:(cadenas)) as [-> ->].
    rewrite (Hex ["en_proceso"; "asignado"; "in_transit"] completadosEstados
               ltac:(cadenas)).
    rewrite (Hex ["en_proceso"; "asignado"; "in_transit"] pendientesEstados
               ltac:(cadenas)).
    reflexivity.
  - destruct (Hsame ["pendiente"; "pending"] pendientesEstados
                ltac:(cadenas)) as [-> ->].
    rewrite (Hex ["pendiente"; "pending"] completadosEstados
               ltac:(cadenas)).
    rewrite (Hex ["pendiente"; "pending"] enProcesoEstados
               ltac:(cadenas)).
    reflexivity.
  - rewrite (Hex ["cancelado"; "cancelled"] completadosEstados
               ltac:(cadenas)).
    rewrite (Hex ["cancelado"; "cancelled"] enProcesoEstados
               ltac:(cadenas)).
    rewrite (Hex ["cancelado"; "cancelled"] pendientesEstados
               ltac:(cadenas)).
    reflexivity.
Qed.

Lemma pedidos_filtro_y_estadisticas_witness :
  map value
      (estadisticasResumen
         (estadoFinal
            (alResponder
               (Exito (Some [ [("status", JStr "Entregado")];
                              [("status", JStr "pending")];
                              [("status", JStr "DELIVERED")] ]))
               pedidosCompletados)))
  = [2; 2; 0; 0]%Z.
Proof.
  apply (pedidos_filtro_y_estadisticas pedidosCompletados
           [ [("status", JStr "Entregado")]; [("status", JStr "pending")];
             [("status", JStr "DELIVERED")] ]); reflexivity.
Defined.

(* ================================================================== *)
(** * The request, for every category                                 *)
(* ================================================================== *)

(** Without a start date the request has no query parameters. *)
Lemma generarReporte_sin_fechas (c : ReportesComponent) :
  fechaInicio (filtros c) = "" ->
  exists url,
    generarReporte c
    = (set_loading true (set_error None c), [HttpGet url []], Ok tt).
Proof.
  intro H. destruct c as [t d ti l e f es]. simpl in H.
  unfold generarReporte, bind, asignar, this, efecto. simpl. rewrite H. simpl.
  repeat match goal with
         | |- context [if ?b then _ else _] => destruct b
         end; eexists; reflexivity.
Qed.

(** X17. Every call of [generarReporte] returns normally, clears the message,
    raises the loading flag and issues exactly one request.  For a known
    category the URL is under the API base.  The request carries query
    parameters in one case only: orders with both dates set. *)
Theorem generarReporte_una_peticion (c : ReportesComponent) :
  exists url params,
    generarReporte c
    = (set_loading true (set_error None c), [HttpGet url params], Ok tt) /\
    (In (tipoReporte c) tiposConocidos -> exists ruta, url = apiUrl ++ ruta) /\
    (params <> [] <->
     tipoReporte c = "pedidos" /\ fechaInicio (filtros c) <> ""
     /\ fechaFin (filtros c) <> "").
Proof.
  destruct c as [t d ti l e f es].
  unfold generarReporte, bind, asignar, this, efecto. simpl.
  destruct (conocido_dec t) as [->|[->|[->|[->|H]]]]; simpl.
  - destruct (truthy (fechaInicio f)) eqn:E1; simpl;
      [destruct (truthy (fechaFin f)) eqn:E2; simpl|].
    + do 2 eexists. split; [reflexivity|]. split; [eauto|].
      apply truthy_iff in E1, E2. split; [tauto|discriminate].
    + apply truthy_false_iff in E2.
      destruct (truthy (clienteId f)); do 2 eexists;
        (split; [reflexivity|]); (split; [eauto|]); split; tauto.
    + apply truthy_false_iff in E1.
      destruct (truthy (clienteId f)); do 2 eexists;
        (split; [reflexivity|]); (split; [eauto|]); split; tauto.
  - do 2 eexists. split; [reflexivity|]. split; [eauto|].
    split; [tauto|]. intros [? _]; discriminate.
  - do 2 eexists. split; [reflexivity|]. split; [eauto|].
    split; [tauto|]. intros [? _]; discriminate.
  - do 2 eexists. split; [reflexivity|]. split; [eauto|].
    split; [tauto|]. intros [? _]; discriminate.
  - destruct (no_conocido t H) as (H1 & H2 & H3 & H4).
    rewrite H1, H2, H3, H4. do 2 eexists. split; [reflexivity|].
    split; [intro Hin; contradiction|].
    split; [tauto|]. intros [-> _]. discriminate H1.
Qed.

(** X18. Drivers: the completed-routes endpoint of the chosen driver, and of
    driver "1" when none is chosen; dates and client are not sent. *)
Theorem generarReporte_conductores (c : ReportesComponent) :
  tipoReporte c = "conductores" ->
  (conductorId (filtros c) <> "" ->
   efectos (generarReporte c) =
   [HttpGet (apiUrl ++ "/reports/routes-completed-by-driver/"
                    ++ conductorId (filtros c)) []]) /\
  (conductorId (filtros c) = "" ->
   efectos (generarReporte c) =
   [HttpGet (apiUrl ++ "/reports/routes-completed-by-driver/1") []]).
Proof.
  intro Ht. destruct c as [t d ti l e f es]. simpl in *. subst t.
  unfold generarReporte, bind, asignar, this, efecto. simpl. split; intro H.
  - apply truthy_iff in H. rewrite H. reflexivity.
  - rewrite H. reflexivity.
Qed.

Lemma generarReporte_conductores_witness :
  efectos (generarReporte conductoresSinId) =
  [HttpGet "http://localhost:8000/api/v1/reports/routes-completed-by-driver/1" []].
Proof.
  apply (generarReporte_conductores conductoresSinId); reflexivity.
Defined.

(** X19. The three client-side criteria never reach the backend: two filter
    settings that agree on the dates, the client and the driver produce
    the same request, whatever the category. *)
Theorem generarReporte_criterios_locales (c : ReportesComponent) (g : Filtros) :
  fechaInicio g = fechaInicio (filtros c) ->
  fechaFin g = fechaFin (filtros c) ->
  clienteId g = clienteId (filtros c) ->
  conductorId g = conductorId (filtros c) ->
  efectos (generarReporte (set_filtros g c)) = efectos (generarReporte c).
Proof.
  intros H1 H2 H3 H4. destruct c as [t d ti l e f es]. simpl in *.
  unfold generarReporte, bind, asignar, this, efecto. simpl.
  rewrite H1, H2, H3, H4.
  repeat match goal with
         | |- context [if ?b then _ else _] => destruct b
         end; reflexivity.
Qed.

Lemma generarReporte_criterios_locales_witness :
  efectos (generarReporte
             (set_filtros (mkFiltros "2024-01-01" "2024-01-31" "activo"
                                     "pendiente" "moto" "" "")
                          pedidosEnero))
  = efectos (generarReporte pedidosEnero).
Proof.
  apply generarReporte_criterios_locales; reflexivity.
Defined.

(* ================================================================== *)
(** * Clearing the filters                                            *)
(* ================================================================== *)

(** [limpiarFiltros] empties the seven criteria, the table and the
    statistics.  Unlike a category switch it keeps the error message; it
    also keeps category, title and loading flag, and asks for no effect. *)
Lemma limpiarFiltros_marco (c : ReportesComponent) :
  let r := limpiarFiltros c in
  resultado r = Ok tt /\ efectos r = [] /\
  filtros (estadoFinal r) = filtrosVacios /\
  datosReporte (estadoFinal r) = [] /\
  estadisticasResumen (estadoFinal r) = [] /\
  error (estadoFinal r) = error c /\
  loading (estadoFinal r) = loading c /\
  tipoReporte (estadoFinal r) = tipoReporte c /\
  tituloReporte (estadoFinal r) = tituloReporte c.
Proof.
  cbv zeta. unfold limpiarFiltros, bind, asignar. simpl. repeat split.
Qed.

(** X20. After [limpiarFiltros], the next report is the unrestricted one: the
    request has no query parameters, and every row of the response is
    stored, for any category and any rows. *)
Theorem limpiarFiltros_y_generar (c : ReportesComponent) (data : list Registro) :
  let c1 := estadoFinal (limpiarFiltros c) in
  let c2 := estadoFinal (generarReporte c1) in
  (exists url, efectos (generarReporte c1) = [HttpGet url []]) /\
  (tipoReporte c = "pedidos" ->
   efectos (generarReporte c1) = [HttpGet (apiUrl ++ "/orders") []]) /\
  datosReporte (estadoFinal (alResponder (Exito (Some data)) c2)) = data.
Proof.
  cbv zeta.
  assert (Hc1 : estadoFinal (limpiarFiltros c)
                = mkComponent (tipoReporte c) [] (tituloReporte c) (loading c)
                              (error c) filtrosVacios [])
    by (destruct c; reflexivity).
  rewrite Hc1. clear Hc1.
  set (c1 := mkComponent _ _ _ _ _ _ _).
  destruct (generarReporte_sin_fechas c1 eq_refl) as (url & Hg).
  rewrite Hg. split; [|split].
  - exists url. reflexivity.
  - intro Ht. subst c1. rewrite Ht in Hg.
    unfold generarReporte, bind, asignar, this, efecto in Hg. simpl in Hg.
    now injection Hg as <-.
  - cbn [estadoFinal fst]. set (c2 := set_loading true (set_error None c1)).
    assert (Hf : filtrarDatos (tipoReporte c2) (filtros c2) data = Ok data)
      by (unfold filtrarDatos; cbn; rewrite !andb_false_r; reflexivity).
    destruct (calcularEstadisticas_forma
                (set_datosReporte data (set_loading false c2))) as (es' & r & Hc).
    cbn [alResponder].
    rewrite (alRecibir_pasos c2 data data es' r Hf Hc).
    destruct r as [u|ex]; [|reflexivity].
    destruct (Nat.eqb (length data) 0 && Nat.ltb 0 (length data)); reflexivity.
Qed.

(* ================================================================== *)
(** * Column names                                                    *)
(* ================================================================== *)

(** X21. Every key of the translation table is shown under its own label: no
    entry is shadowed by another, nor by an inherited member. *)
Theorem formatColumnName_traducida (key etiqueta : string) :
  In (key, etiqueta) translations ->
  formatColumnName key = JStr etiqueta.
Proof.
  unfold translations. simpl. intro H.
  repeat match goal with
         | H : _ \/ _ |- _ => destruct H as [H|H]
         | H : (_, _) = (_, _) |- _ => injection H as <- <-; reflexivity
         | H : False |- _ => destruct H
         end.
Qed.

Lemma formatColumnName_traducida_witness :
  formatColumnName "tracking_code" = JStr "Código Rastreo".
Proof.
  apply formatColumnName_traducida. unfold translations. simpl. tauto.
Defined.

Lemma upperAscii_no_guion (c : ascii) :
  Ascii.eqb (upperAscii c) "_"%char = Ascii.eqb c "_"%char.
Proof.
  destruct c as [[] [] [] [] [] [] [] []]; reflexivity.
Qed.

Lemma capitalizar_longitud (b : bool) (s : string) :
  String.length (capitalizar b s) = String.length s.
Proof.
  revert b. induction s as [|c s IH]; intro b; simpl; [reflexivity|].
  now rewrite IH.
Qed.

Lemma mapStr_longitud (f : ascii -> ascii) (s : string) :
  String.length (mapStr f s) = String.length s.
Proof.
  induction s as [|c s IH]; simpl; [reflexivity|]. now rewrite IH.
Qed.

Lemma capitalizar_sin_guion (b : bool) (s : string) :
  tieneCaracter "_"%char s = false ->
  tieneCaracter "_"%char (capitalizar b s) = false.
Proof.
  revert b. induction s as [|c s IH]; intro b; simpl; [reflexivity|].
  intro H. apply orb_false_iff in H. destruct H as [Hc Hs].
  rewrite (IH _ Hs), orb_false_r.
  destruct (negb b && esPalabra c); [|exact Hc].
  now rewrite upperAscii_no_guion.
Qed.

Lemma guionesAEspacios_sin_guion (s : string) :
  tieneCaracter "_"%char (guionesAEspacios s) = false.
Proof.
  unfold guionesAEspacios.
  induction s as [|c s IH]; simpl; [reflexivity|].
  rewrite IH, orb_false_r.
  destruct (Ascii.eqb c "_") eqn:E; [reflexivity|exact E].
Qed.

(** X22. A key outside the translation table (and not the name of an inherited
    member) is shown humanised: a text of the same length as the key,
    with no underscore left. *)
Theorem formatColumnName_humaniza (key : string) :
  ownProp translations key = None ->
  strIn key objectPrototypeKeys = false ->
  exists s, formatColumnName key = JStr s /\
            String.length s = String.length key /\
            tieneCaracter "_"%char s = false.
Proof.
  intros Ho Hp. unfold formatColumnName, buscarO. rewrite Ho, Hp.
  eexists. split; [reflexivity|]. split.
  - rewrite capitalizar_longitud. apply mapStr_longitud.
  - apply capitalizar_sin_guion, guionesAEspacios_sin_guion.
Qed.

Lemma formatColumnName_humaniza_witness :
  exists s, formatColumnName "total_orders" = JStr s /\
            String.length s = 12%nat /\
            tieneCaracter "_"%char s = false.
Proof.
  apply (formatColumnName_humaniza "total_orders"); reflexivity.
Defined.

(** The columns of the table are the keys of its first row, in that row's
    order; keys that only later rows have get no column. *)
Lemma getColumnKeys_primera_fila (c : ReportesComponent)
      (primera : Registro) (resto : list Registro) :
  getColumnKeys (set_datosReporte (primera :: resto) c) = map fst primera.
Proof. reflexivity. Qed.

(* ================================================================== *)
(** * Cells                                                           *)
(* ================================================================== *)

(** X23. When [getColumnValue] throws: exactly under the keys [status] and
    [priority], on a value that is neither null, undefined nor a string.
    Under every other key it returns, whatever the value. *)
Theorem getColumnValue_lanza_sii (rt : Runtime) (item : Registro) (key : string) :
  getColumnValue rt item key = Lanza TypeError <->
  (key = "status" \/ key = "priority") /\ encadenable (prop item key) = false.
Proof.
  unfold getColumnValue, toLocaleStringEsCO.
  destruct (esNulo (prop item key)) eqn:En.
  { split; [discriminate|]. intros [_ H].
    destruct (prop item key); discriminate. }
  destruct (includes key "date" || includes key "_at") eqn:Ed.
  { split.
    - destruct (dateTimeValue rt (prop item key)); discriminate.
    - intros [[->| ->] _]; discriminate Ed. }
  destruct (String.eqb_spec key "status") as [->|Ns].
  { destruct (prop item "status"); simpl; split;
      try discriminate; try tauto; intros [_ ?]; discriminate. }
  destruct (String.eqb_spec key "priority") as [->|Np].
  { destruct (prop item "priority"); simpl; split;
      try discriminate; try tauto; intros [_ ?]; discriminate. }
  split; [|tauto].
  destruct (String.eqb key "value" && String.eqb (typeof (prop item key)) "number");
    [discriminate|].
  destruct (String.eqb (typeof (prop item key)) "object"); discriminate.
Qed.

(** X24. A cell is never null or undefined: whenever [getColumnValue] returns,
    it returns something to show, and for an absent or null field the
    dash. *)
Theorem getColumnValue_nunca_nulo
        (rt : Runtime) (item : Registro) (key : string) (v : any) :
  getColumnValue rt item key = Ok v ->
  esNulo v = false /\ (esNulo (prop item key) = true -> v = JStr "-").
Proof.
  unfold getColumnValue, toLocaleStringEsCO.
  destruct (esNulo (prop item key)) eqn:En.
  { intro H. injection H as <-. split; reflexivity. }
  intro H. split; [|discriminate].
  destruct (includes key "date" || includes key "_at").
  { destruct (dateTimeValue rt (prop item key)); injection H as <-; reflexivity. }
  assert (Hb : forall tabla k, esNulo (buscarO tabla k (prop item key)) = false).
  { intros tabla k. unfold buscarO.
    destruct (ownProp tabla _); [reflexivity|].
    destruct (strIn _ objectPrototypeKeys); [reflexivity|exact En]. }
  destruct (String.eqb key "status").
  { destruct (optToLowerCase (prop item key)); [|discriminate].
    injection H as <-. apply Hb. }
  destruct (String.eqb key "priority").
  { destruct (optToLowerCase (prop item key)); [|discriminate].
    injection H as <-. apply Hb. }
  destruct (String.eqb key "value" && String.eqb (typeof (prop item key)) "number");
    [injection H as <-; reflexivity|].
  destruct (String.eqb (typeof (prop item key)) "object");
    injection H as <-; [reflexivity|exact En].
Qed.

Lemma getColumnValue_nunca_nulo_witness :
  esNulo (JStr "-") = false
  /\ (esNulo (prop [("id", JNum 1); ("phone", JNull)] "phone") = true ->
      JStr "-" = JStr "-").
Proof.
  apply (getColumnValue_nunca_nulo Referencia.rt
           [("id", JNum 1); ("phone", JNull)] "phone").
  reflexivity.
Defined.

(** X25. Status and priority labels are looked up without regard to letter
    case; a status or priority that the label table does not have (and
    that names no inherited member) is shown as it came, letter case
    included. *)
Theorem getColumnValue_etiquetas
        (rt : Runtime) (item : Registro) (key s : string)
        (tabla : list (string * string)) :
  In (key, tabla) [("status", statusMap); ("priority", priorityMap)] ->
  prop item key = JStr s ->
  (forall etiqueta, ownProp tabla (toLowerCase s) = Some etiqueta ->
                    getColumnValue rt item key = Ok (JStr etiqueta)) /\
  (ownProp tabla (toLowerCase s) = None ->
   strIn (toLowerCase s) objectPrototypeKeys = false ->
   getColumnValue rt item key = Ok (JStr s)).
Proof.
  intros Hin Hv.
  assert (Hg : getColumnValue rt item key
               = Ok (buscarO tabla (JStr (toLowerCase s)) (JStr s))).
  { simpl in Hin. destruct Hin as [E|[E|[]]]; injection E as <- <-;
      unfold getColumnValue; rewrite Hv; reflexivity. }
  rewrite Hg. unfold buscarO. split.
  - intros etiqueta ->. reflexivity.
  - intros -> ->. reflexivity.
Qed.

Lemma getColumnValue_etiquetas_witness :
  getColumnValue Referencia.rt [("id", JNum 4); ("status", JStr "ENTREGADO")] "status"
  = Ok (JStr "Entregado")
  /\ getColumnValue Referencia.rt [("id", JNum 5); ("priority", JStr "Urgente")] "priority"
     = Ok (JStr "Urgente").
Proof.
  split.
  - apply (proj1 (getColumnValue_etiquetas Referencia.rt
                    [("id", JNum 4); ("status", JStr "ENTREGADO")] "status"
                    "ENTREGADO" statusMap
                    (or_introl eq_refl) eq_refl)).
    reflexivity.
  - apply (proj2 (getColumnValue_etiquetas Referencia.rt
                    [("id", JNum 5); ("priority", JStr "Urgente")] "priority"
                    "Urgente" priorityMap
                    (or_intror (or_introl eq_refl)) eq_refl)); reflexivity.
Defined.

(* ================================================================== *)
(** * The CSV export                                                  *)
(* ================================================================== *)

Lemma includes_caracter (c : ascii) (s : string) :
  includes s (String c "") = tieneCaracter c s.
Proof.
  unfold includes. induction s as [|a s IH]; [reflexivity|].
  cbn [index tieneCaracter].
  replace (prefix (String c "") (String a s)) with (Ascii.eqb a c).
  - destruct (Ascii.eqb a c); [reflexivity|]. simpl.
    rewrite <- IH. destruct (index 0 (String c "") s); reflexivity.
  - simpl. destruct (ascii_dec c a) as [->|N].
    + rewrite Ascii.eqb_refl. now destruct s.
    + apply Ascii.eqb_neq. congruence.
Qed.

Lemma append_assoc (a b c : string) : (a ++ b) ++ c = a ++ (b ++ c).
Proof. induction a as [|x a IH]; simpl; [reflexivity|]. now rewrite IH. Qed.

Lemma append_nil_r (a : string) : a ++ "" = a.
Proof. induction a as [|x a IH]; simpl; [reflexivity|]. now rewrite IH. Qed.

(** Inside a quoted stretch the reader takes everything up to a quote. *)
Lemma leerCsv_dentro (t campo resto : string) :
  tieneCaracter (ascii_of_nat 34) t = false ->
  leerCsv true campo (t ++ resto) = leerCsv true (campo ++ t) resto.
Proof.
  revert campo. induction t as [|ch t IH]; intros campo H; simpl.
  - now rewrite append_nil_r.
  - simpl in H. apply orb_false_iff in H. destruct H as [Hq Ht].
    rewrite Hq, andb_false_r, (IH _ Ht), append_assoc. reflexivity.
Qed.

(** Outside one it takes everything up to a quote or a comma. *)
Lemma leerCsv_fuera (t campo resto : string) :
  tieneCaracter (ascii_of_nat 34) t = false ->
  tieneCaracter ","%char t = false ->
  leerCsv false campo (t ++ resto) = leerCsv false (campo ++ t) resto.
Proof.
  revert campo. induction t as [|ch t IH]; intros campo H H'; simpl.
  - now rewrite append_nil_r.
  - simpl in H, H'. apply orb_false_iff in H, H'.
    destruct H as [Hq Ht], H' as [Hc Ht'].
    rewrite Hq, Hc. cbn [andb]. rewrite (IH _ Ht Ht'), append_assoc. reflexivity.
Qed.

Lemma leerCsv_campo (v campo resto : string) :
  tieneCaracter (ascii_of_nat 34) v = false ->
  leerCsv false campo (campoCsv v ++ resto) = leerCsv false (campo ++ v) resto.
Proof.
  intro H. unfold campoCsv. destruct (includes v ",") eqn:E.
  - unfold comilla. rewrite !append_assoc. cbn [append leerCsv].
    rewrite Ascii.eqb_refl. cbn [negb].
    rewrite (leerCsv_dentro _ _ _ H). cbn [leerCsv].
    rewrite Ascii.eqb_refl. reflexivity.
  - rewrite includes_caracter in E. now apply leerCsv_fuera.
Qed.

Lemma leerCsv_join (v : string) (vs : list string) (campo : string) :
  Forall (fun x => tieneCaracter (ascii_of_nat 34) x = false) (v :: vs) ->
  leerCsv false campo (join "," (map campoCsv (v :: vs))) = (campo ++ v) :: vs.
Proof.
  revert v campo. induction vs as [|w vs IH]; intros v campo H.
  - inversion H as [|? ? Hv _]; subst. cbn [map join].
    rewrite <- (append_nil_r (campoCsv v)), (leerCsv_campo _ _ _ Hv).
    reflexivity.
  - inversion H as [|? ? Hv Hvs]; subst.
    change (join "," (map campoCsv (v :: w :: vs)))
      with (campoCsv v ++ "," ++ join "," (map campoCsv (w :: vs))).
    rewrite (leerCsv_campo _ _ _ Hv). cbn [append leerCsv].
    replace (Ascii.eqb "," (ascii_of_nat 34)) with false by reflexivity.
    rewrite Ascii.eqb_refl. cbn [negb andb].
    now rewrite (IH w "" Hvs).
Qed.

Section MapaQueLanza.

Context {A B C : Type} (cb : A -> Resultado B) (g : B -> C).

Lemma mapR_map (arr : list A) :
  mapR (fun x => bindR (cb x) (fun y => Ok (g y))) arr
  = bindR (mapR cb arr) (fun ys => Ok (map g ys)).
Proof.
  induction arr as [|x arr IH]; simpl; [reflexivity|].
  destruct (cb x) as [y|e]; simpl; [|reflexivity].
  rewrite IH. destruct (mapR cb arr); reflexivity.
Qed.

Lemma mapR_longitud (arr : list A) (ys : list B) :
  mapR cb arr = Ok ys -> length ys = length arr.
Proof.
  revert ys. induction arr as [|x arr IH]; simpl; intros ys H.
  - now injection H as <-.
  - destruct (cb x) as [y|e]; [|discriminate]. simpl in H.
    destruct (mapR cb arr) as [zs|e]; [|discriminate].
    injection H as <-. simpl. now rewrite (IH zs eq_refl).
Qed.

Lemma mapR_In (arr : list A) (ys : list B) :
  mapR cb arr = Ok ys ->
  forall y, In y ys -> exists x, In x arr /\ cb x = Ok y.
Proof.
  revert ys. induction arr as [|x arr IH]; simpl; intros ys H y Hy.
  - injection H as <-. destruct Hy.
  - destruct (cb x) as [y0|e] eqn:Ex; [|discriminate]. simpl in H.
    destruct (mapR cb arr) as [zs|e]; [|discriminate].
    injection H as <-. destruct Hy as [<-|Hy]; [eauto|].
    destruct (IH zs eq_refl y Hy) as (x' & Hin & Hx). eauto.
Qed.

End MapaQueLanza.

Lemma filaCsv_celdas (rt : Runtime) (headers : list string) (row : Registro) :
  filaCsv rt headers row =
  bindR (mapR (getColumnValue rt row) headers)
        (fun vals => Ok (join "," (map campoCsv (map (toStr rt) vals)))).
Proof.
  unfold filaCsv.
  rewrite (mapR_map (getColumnValue rt row) (fun v => campoCsv (toStr rt v))).
  destruct (mapR (getColumnValue rt row) headers); simpl; [|reflexivity].
  now rewrite map_map.
Qed.

(** X26. Reading a written line back.  A line written for at least one column,
    none of whose cell texts holds a double quote, reads back as exactly
    those texts, one per column: commas inside a cell do not split it. *)
Theorem filaCsv_ida_y_vuelta
        (rt : Runtime) (headers : list string) (row : Registro) (linea : string) :
  headers <> [] ->
  filaCsv rt headers row = Ok linea ->
  (forall h v, In h headers -> getColumnValue rt row h = Ok v ->
               tieneCaracter (ascii_of_nat 34) (toStr rt v) = false) ->
  exists vals,
    mapR (getColumnValue rt row) headers = Ok vals /\
    leerCsv false "" linea = map (toStr rt) vals /\
    length (leerCsv false "" linea) = length headers.
Proof.
  intros Hne Hf Hq. rewrite filaCsv_celdas in Hf.
  destruct (mapR (getColumnValue rt row) headers) as [vals|e] eqn:Em;
    [|discriminate].
  simpl in Hf. injection Hf as <-. exists vals. split; [reflexivity|].
  assert (Hl : length vals = length headers) by (eapply mapR_longitud; eauto).
  assert (Hr : leerCsv false "" (join "," (map campoCsv (map (toStr rt) vals)))
               = map (toStr rt) vals).
  { destruct vals as [|v vals]; [destruct headers; [contradiction|discriminate]|].
    change (map (toStr rt) (v :: vals))
      with (toStr rt v :: map (toStr rt) vals).
    rewrite leerCsv_join; [reflexivity|].
    apply Forall_forall. intros t Ht.
    change (toStr rt v :: map (toStr rt) vals) with (map (toStr rt) (v :: vals)) in Ht.
    apply in_map_iff in Ht. destruct Ht as (w & <- & Hw).
    destruct (mapR_In _ _ _ Em w Hw) as (h & Hh & Hv). eauto. }
  split; [exact Hr|]. rewrite Hr, length_map. exact Hl.
Qed.

Lemma filaCsv_ida_y_vuelta_witness :
  leerCsv false ""
          (match filaCsv Referencia.rt ["id"; "name"; "status"]
                         [("id", JNum 2); ("name", JStr "Ruiz, Luis"); ("status", JNull)]
           with Ok l => l | Lanza _ => "" end)
  = ["2"; "Ruiz, Luis"; "-"].
Proof.
  destruct (filaCsv_ida_y_vuelta Referencia.rt ["id"; "name"; "status"]
              [("id", JNum 2); ("name", JStr "Ruiz, Luis"); ("status", JNull)]
              (String "2" ("," ++ comilla ++ "Ruiz, Luis" ++ comilla ++ ",-")))
    as (vals & Hm & Hr & _).
  - discriminate.
  - reflexivity.
  - intros h v [<-|[<-|[<-|[]]]] Hv; vm_compute in Hv; injection Hv as <-;
      reflexivity.
  - vm_compute in Hm. injection Hm as <-. exact Hr.
Defined.

(** The reader is needed: with a double quote inside a cell the line is
    written without escaping it, and does not read back. *)
Lemma filaCsv_comilla_no_vuelve :
  let v := "12" ++ comilla ++ ", tubo" in
  filaCsv Referencia.rt ["name"] [("name", JStr v)]
  = Ok (comilla ++ v ++ comilla)
  /\ leerCsv false "" (comilla ++ v ++ comilla) <> [v].
Proof.
  split; [reflexivity|discriminate].
Qed.

(** [exportarExcel], case by case. *)
Lemma exportarExcel_casos (rt : Runtime) (c : ReportesComponent) :
  exportarExcel rt c =
  match datosReporte c with
  | [] => (set_error (Some mensajeSinDatos) c, [SetTimeout BorrarError 3000], Ok tt)
  | _ :: _ =>
      match mapR (filaCsv rt (getColumnKeys c)) (datosReporte c) with
      | Ok filas =>
          (c, [Descarga (tituloReporte c ++ "_" ++ hoyISO rt ++ ".csv")
                        (bom ++ join saltoDeLinea
                                  (join "," (map (fun h => toStr rt (formatColumnName h))
                                                 (getColumnKeys c)) :: filas))],
           Ok tt)
      | Lanza _ =>
          (set_error (Some "Error al exportar CSV") c,
           [SetTimeout BorrarError 3000], Ok tt)
      end
  end.
Proof.
  destruct c as [t d ti l e f es].
  unfold exportarExcel, bind, this, tryCatch, evaluar, efecto, asignar. simpl.
  destruct d as [|r0 d]; simpl; [reflexivity|].
  unfold getColumnKeys. simpl.
  destruct (filaCsv rt (map fst r0) r0) as [l0|e0]; simpl; [|reflexivity].
  destruct (mapR (filaCsv rt (map fst r0)) d) as [ls|e1]; reflexivity.
Qed.

(** X27. What an export comes to.  [exportarExcel] never throws and asks for
    exactly one effect.  On an empty table, or when a cell cannot be
    formatted, that effect is the 3000 ms timer and [error] holds the
    reason; no file is produced.  Otherwise it is one download, named
    after the title and the day, whose text starts with the byte order
    mark and has the header line followed by one line per row; the
    component is left exactly as it was. *)
Theorem exportarExcel_resultado (rt : Runtime) (c : ReportesComponent) :
  let headers := getColumnKeys c in
  let cabecera := join "," (map (fun h => toStr rt (formatColumnName h)) headers) in
  resultado (exportarExcel rt c) = Ok tt /\
  match datosReporte c, mapR (filaCsv rt headers) (datosReporte c) with
  | [], _ =>
      exportarExcel rt c
      = (set_error (Some mensajeSinDatos) c, [SetTimeout BorrarError 3000], Ok tt)
  | _ :: _, Lanza _ =>
      exportarExcel rt c
      = (set_error (Some "Error al exportar CSV") c,
         [SetTimeout BorrarError 3000], Ok tt)
  | _ :: _, Ok filas =>
      exportarExcel rt c
      = (c, [Descarga (tituloReporte c ++ "_" ++ hoyISO rt ++ ".csv")
                      (bom ++ join saltoDeLinea (cabecera :: filas))], Ok tt)
      /\ length filas = length (datosReporte c)
  end.
Proof.
  cbv zeta. rewrite exportarExcel_casos.
  destruct (datosReporte c) as [|r0 d] eqn:Ed; [split; reflexivity|].
  destruct (mapR (filaCsv rt (getColumnKeys c)) (r0 :: d)) as [filas|e] eqn:Em;
    [|split; reflexivity].
  repeat split. eapply mapR_longitud; eauto.
Qed.

(* ================================================================== *)
(** * The print view                                                  *)
(* ================================================================== *)

Section Devuelve.

Context {A B C : Type} (f : A -> Resultado B) (g : A -> Resultado C).

Lemma mapR_devuelve (arr : list A) :
  (forall x, devuelve (f x) = devuelve (g x)) ->
  devuelve (mapR f arr) = devuelve (mapR g arr).
Proof.
  intro H. induction arr as [|x arr IH]; simpl; [reflexivity|].
  specialize (H x). destruct (f x), (g x); try discriminate; simpl; [|reflexivity].
  destruct (mapR f arr), (mapR g arr); try discriminate; reflexivity.
Qed.

End Devuelve.

Lemma bindR_devuelve {A B : Type} (r : Resultado A) (k : A -> B) :
  devuelve (bindR r (fun x => Ok (k x))) = devuelve r.
Proof. destruct r; reflexivity. Qed.

(** A CSV line and a table row can be written for the same rows: those
    whose every cell can be formatted. *)
Lemma filas_devuelven (rt : Runtime) (keys : list string) (datos : list Registro) :
  devuelve (mapR (filaCsv rt keys) datos) = devuelve (mapR (filaHtml rt keys) datos).
Proof.
  apply mapR_devuelve. intro row. unfold filaCsv, filaHtml.
  rewrite !bindR_devuelve. apply mapR_devuelve. intro k.
  unfold celdaHtml. now rewrite !bindR_devuelve.
Qed.

(** X28. The two exporters accept the same tables.  On an empty table both
    refuse, with the same message and timer; on any other, the CSV export
    produces its download exactly when the print view (pop-ups allowed)
    writes its document. *)
Theorem exportadores_coinciden (rt : Runtime) (ahora : string) (c : ReportesComponent) :
  (datosReporte c = [] ->
   estadoV (exportarPDF rt ahora true c) = estadoFinal (exportarExcel rt c)
   /\ efectosV (exportarPDF rt ahora true c)
      = map Temporizador (efectos (exportarExcel rt c))) /\
  ((exists nombre texto, efectos (exportarExcel rt c) = [Descarga nombre texto]) <->
   (exists html, efectosV (exportarPDF rt ahora true c)
                 = [WindowOpen; DocumentWrite html; DocumentClose])).
Proof.
  rewrite exportarExcel_casos. unfold exportarPDF, documentoPDF.
  pose proof (filas_devuelven rt (getColumnKeys c) (datosReporte c)) as Hd.
  destruct (datosReporte c) as [|r0 d] eqn:Ed.
  - cbn. split; [split; reflexivity|].
    split; intros (x & H); [destruct H as (y & H)|]; discriminate.
  - cbn [length Nat.eqb]. split; [discriminate|].
    destruct (mapR (filaCsv rt (getColumnKeys c)) (r0 :: d)),
             (mapR (filaHtml rt (getColumnKeys c)) (r0 :: d));
      try discriminate Hd; cbn.
    + split; intros _; eauto.
    + split; intros (x & H); [destruct H as (y & H)|]; discriminate.
Qed.

(** X29. What the print view may do.  It never throws.  It either leaves the
    component as it was or sets a message together with the 3000 ms timer
    that clears it.  A document is written only when pop-ups are allowed,
    the table is not empty and every cell could be formatted; it is then
    the whole document, and the component is untouched.  When a cell
    cannot be formatted no window is opened at all. *)
Theorem exportarPDF_marco
        (rt : Runtime) (ahora : string) (emergente : bool) (c : ReportesComponent) :
  let r := exportarPDF rt ahora emergente c in
  resultadoV r = Ok tt /\
  (estadoV r = c \/
   exists m, estadoV r = set_error (Some m) c /\
             In (Temporizador (SetTimeout BorrarError 3000)) (efectosV r)) /\
  (forall html, In (DocumentWrite html) (efectosV r) ->
     emergente = true /\ datosReporte c <> [] /\
     documentoPDF rt ahora c = Ok html /\ estadoV r = c) /\
  (In WindowOpen (efectosV r) -> exists html, documentoPDF rt ahora c = Ok html).
Proof.
  cbv zeta. unfold exportarPDF.
  destruct (datosReporte c) as [|r0 d] eqn:Ed; cbn [length Nat.eqb].
  - cbn. repeat split.
    + right. eexists. split; [reflexivity|]. now left.
    + destruct H as [H|[]]; discriminate.
    + destruct H as [H|[]]; discriminate.
    + destruct H as [H|[]]; discriminate.
    + destruct H as [H|[]]; discriminate.
    + intros [H|[]]; discriminate.
  - destruct (documentoPDF rt ahora c) as [html|e]; [destruct emergente|]; cbn.
    + split; [reflexivity|]. split; [now left|]. split.
      * intros h [H|[H|[H|[]]]]; try discriminate. injection H as <-.
        repeat split. discriminate.
      * eauto.
    + split; [reflexivity|]. split.
      * right. eexists. split; [reflexivity|]. right. now left.
      * split; [|eauto]. intros h [H|[H|[]]]; discriminate.
    + split; [reflexivity|]. split.
      * right. eexists. split; [reflexivity|]. now left.
      * split; [intros h [H|[]]; discriminate|].
        intros [H|[]]; discriminate.
Qed.
